(** * cluster-api-provider-azure: agent pool parameters and the VM service

    A shallow embedding of
      - azure/services/agentpools/spec.go   (AgentPoolSpec, Parameters,
        mergeSystemNodeLabels), and
      - the virtualmachines service (Get, Reconcile, Delete, image
        resolution, GenerateRandomString),
    followed by the properties of the design document that concern them.

    Conventions.
      - A Go pointer [*T] is [option T]; [None] is the nil pointer.
      - A Go map is a reference: a value of type [map[string]*string] is
        [option loc] ([None] is the nil map) and its contents live in a
        [heap].  Writing through one reference is seen through every alias.
      - A Go slice is [slice A]: nil, or a list of elements.
      - int32 and int64 values are [Z]; the code only compares and copies
        them, so no wrap-around arises.
      - A dereference of nil, and a write to a nil map, is the outcome
        [Panic]. *)

From Stdlib Require Import ZArith String Ascii List Bool.
From Stdlib Require Strings.Byte.
From Stdlib Require Import NArith Lia.
From stdpp Require Import base strings gmap list fin_maps.

Local Open Scope Z_scope.
Local Open Scope string_scope.

(** ** Go-level vocabulary shared by both packages *)

Module golang.

(** A map reference and the store of the maps' contents. *)
Definition loc := positive.
Abbreviation labels := (gmap string (option string)).
Abbreviation heap := (gmap loc (gmap string (option string))).

(** The contents seen through a possibly nil map reference; reading a nil
    map behaves as reading an empty one. *)
Definition deref (h : heap) (m : option loc) : labels :=
  match m with
  | Some l => default ∅ (h !! l)
  | None => ∅
  end.

Inductive slice (A : Type) : Type :=
| nil_slice
| mk_slice (elems : list A).
Arguments nil_slice {A}.
Arguments mk_slice {A} elems.

Definition len {A} (s : slice A) : nat :=
  match s with
  | nil_slice => 0%nat
  | mk_slice l => length l
  end.

(** time.Duration counts nanoseconds in an int64. *)
Definition Duration := Z.
Definition Second : Duration := 1000000000.

(** Errors.  [errors_New] is errors.New / errors.Errorf with the message
    already formatted, [errors_Wrap] is errors.Wrap / errors.Wrapf applied
    to a non-nil cause, [DetailedError] is the SDK's autorest.DetailedError
    (a failed HTTP call with its status code). *)
Inductive error : Type :=
| errors_New (msg : string)
| errors_Wrap (cause : error) (msg : string)
| DetailedError (statusCode : Z) (msg : string)
| TransientError (cause : error) (requeueAfter : Duration).

(** Modelled from the spec: azure.WithTransientError (package azure is not
    among the sources) builds "a transient error carrying a suggested retry
    delay". *)
Definition WithTransientError (err : error) (requeueAfter : Duration) : error :=
  TransientError err requeueAfter.

(** Whether an error is a transient one, and the delay it suggests. *)
Definition IsTransient (e : error) : bool :=
  match e with
  | TransientError _ _ => true
  | _ => false
  end.

Definition RequeueAfter (e : error) : Duration :=
  match e with
  | TransientError _ d => d
  | _ => 0
  end.

(** to.Bool and to.String of go-autorest: the pointee, or the zero value. *)
Definition to_Bool (b : option bool) : bool := default false b.
Definition to_String (s : option string) : string := default "" s.

(** cmp.Equal on pointers to comparable values: both nil, or both non-nil
    with equal pointees. *)
Definition cmp_ptr {A} `{EqDecision A} (x y : option A) : bool :=
  match x, y with
  | None, None => true
  | Some a, Some b => bool_decide (a = b)
  | _, _ => false
  end.

(** cmp.Equal on slices of strings: both nil, or both non-nil with the same
    elements in the same order. *)
Definition cmp_slice (x y : slice string) : bool :=
  match x, y with
  | nil_slice, nil_slice => true
  | mk_slice a, mk_slice b => bool_decide (a = b)
  | _, _ => false
  end.

Definition cmp_slice_ptr (x y : option (slice string)) : bool :=
  match x, y with
  | None, None => true
  | Some a, Some b => cmp_slice a b
  | _, _ => false
  end.

(** cmp.Equal on maps: both nil, or both non-nil with the same keys and, at
    every key, equal values (the values are string pointers, compared by
    pointee). *)
Definition cmp_map (h : heap) (x y : option loc) : bool :=
  match x, y with
  | None, None => true
  | Some a, Some b => bool_decide (deref h (Some a) = deref h (Some b))
  | _, _ => false
  end.

End golang.

(** ** The SDK's agent pool type (package containerservice) *)

Module containerservice.
Import golang.

(** ManagedClusterAgentPoolProfileProperties, with the fields this code
    reads or writes.  AgentPoolMode, OSDiskType, OSType, ScaleSetPriority
    and AgentPoolType are string types. *)
Record ManagedClusterAgentPoolProfileProperties : Type := {
  Count : option Z;
  VMSize : option string;
  OsDiskSizeGB : option Z;
  OsDiskType : string;
  VnetSubnetID : option string;
  MaxPods : option Z;
  OsType : string;
  MaxCount : option Z;
  MinCount : option Z;
  EnableAutoScaling : option bool;
  Type_ : string;
  Mode : string;
  OrchestratorVersion : option string;
  ProvisioningState : option string;
  AvailabilityZones : option (slice string);
  EnableNodePublicIP : option bool;
  NodePublicIPPrefixID : option string;
  ScaleSetPriority : string;
  NodeLabels : option loc;
  NodeTaints : option (slice string);
  EnableUltraSSD : option bool
}.

(** AgentPool embeds a pointer to its properties; ID, Name and Type are
    assigned by the provider.  The embedded autorest.Response is left out:
    it is the zero value in every agent pool this code builds or
    compares. *)
Record AgentPool : Type := {
  Properties : option ManagedClusterAgentPoolProfileProperties;
  ID : option string;
  Name : option string;
  Type_AgentPool : option string
}.

Definition AgentPoolTypeVirtualMachineScaleSets : string := "VirtualMachineScaleSets".

(** cmp.Equal on the properties: field by field. *)
Definition cmp_Properties (h : heap)
    (x y : ManagedClusterAgentPoolProfileProperties) : bool :=
  cmp_ptr (Count x) (Count y)
  && cmp_ptr (VMSize x) (VMSize y)
  && cmp_ptr (OsDiskSizeGB x) (OsDiskSizeGB y)
  && bool_decide (OsDiskType x = OsDiskType y)
  && cmp_ptr (VnetSubnetID x) (VnetSubnetID y)
  && cmp_ptr (MaxPods x) (MaxPods y)
  && bool_decide (OsType x = OsType y)
  && cmp_ptr (MaxCount x) (MaxCount y)
  && cmp_ptr (MinCount x) (MinCount y)
  && cmp_ptr (EnableAutoScaling x) (EnableAutoScaling y)
  && bool_decide (Type_ x = Type_ y)
  && bool_decide (Mode x = Mode y)
  && cmp_ptr (OrchestratorVersion x) (OrchestratorVersion y)
  && cmp_ptr (ProvisioningState x) (ProvisioningState y)
  && cmp_slice_ptr (AvailabilityZones x) (AvailabilityZones y)
  && cmp_ptr (EnableNodePublicIP x) (EnableNodePublicIP y)
  && cmp_ptr (NodePublicIPPrefixID x) (NodePublicIPPrefixID y)
  && bool_decide (ScaleSetPriority x = ScaleSetPriority y)
  && cmp_map h (NodeLabels x) (NodeLabels y)
  && cmp_slice_ptr (NodeTaints x) (NodeTaints y)
  && cmp_ptr (EnableUltraSSD x) (EnableUltraSSD y).

(** cmp.Equal on agent pools; cmp.Diff returns the empty string exactly
    when cmp.Equal holds. *)
Definition cmp_Equal (h : heap) (x y : AgentPool) : bool :=
  match Properties x, Properties y with
  | None, None => true
  | Some p, Some q => cmp_Properties h p q
  | _, _ => false
  end
  && cmp_ptr (ID x) (ID y)
  && cmp_ptr (Name x) (Name y)
  && cmp_ptr (Type_AgentPool x) (Type_AgentPool y).

Definition cmp_Diff_is_empty (h : heap) (x y : AgentPool) : bool := cmp_Equal h x y.

End containerservice.

(** ** Package agentpools (azure/services/agentpools/spec.go) *)

Module agentpools.
Import golang.

(** Modelled from the spec: the provisioning states of package infrav1
    (api/v1beta1 is not among the sources), "the defined terminal states
    (Succeeded, Failed, Canceled)". *)
Definition infrav1_Succeeded : string := "Succeeded".
Definition infrav1_Failed : string := "Failed".
Definition infrav1_Canceled : string := "Canceled".

(** Modelled from the spec: azureutil.IsAzureSystemNodeLabelKey (util/azure
    is not among the sources), "a remote-owned label whose key matches a
    reserved system prefix"; the source's comments name the prefix:
    labels "that begin with kubernetes.azure.com". *)
Definition AzureSystemNodeLabelPrefix : string := "kubernetes.azure.com".
Definition IsAzureSystemNodeLabelKey (labelKey : string) : bool :=
  String.prefix AzureSystemNodeLabelPrefix labelKey.

Record AgentPoolSpec : Type := {
  Name : string;
  ResourceGroup : string;
  Cluster : string;
  Version : option string;
  SKU : string;
  Replicas : Z;
  OSDiskSizeGB : Z;
  VnetSubnetID : string;
  Mode : string;
  MaxCount : option Z;
  MinCount : option Z;
  NodeLabels : option loc;
  NodeTaints : slice string;
  EnableAutoScaling : option bool;
  AvailabilityZones : slice string;
  MaxPods : option Z;
  OsDiskType : option string;
  EnableUltraSSD : option bool;
  OSType : option string;
  Headers : option (gmap string string);
  EnableNodePublicIP : option bool;
  NodePublicIPPrefixID : option string;
  ScaleSetPriority : option string
}.

Definition ResourceName (s : AgentPoolSpec) : string := Name s.
Definition ResourceGroupName (s : AgentPoolSpec) : string := ResourceGroup s.
Definition OwnerResourceName (s : AgentPoolSpec) : string := Cluster s.
Definition CustomHeaders (s : AgentPoolSpec) : option (gmap string string) := Headers s.

(** The [existing interface{}] argument: nil, an agent pool, or a value of
    another dynamic type (named as %T prints it). *)
Inductive existing_value : Type :=
| existing_nil
| existing_AgentPool (p : containerservice.AgentPool)
| existing_other (typeName : string).

(** What a call does: it panics, or it returns [(params, err)]. *)
Inductive outcome : Type :=
| Panic
| Return (params : option containerservice.AgentPool) (err : option error).

(** The loop of mergeSystemNodeLabels over the entries of [aks], writing
    into the map [ret].  Go ranges over a map in an unspecified order; the
    writes go to distinct keys, so every order builds the same map. *)
Definition mergeLoop (aks ret : labels) : labels :=
  map_fold (fun aksNodeLabelKey v ret =>
              if IsAzureSystemNodeLabelKey aksNodeLabelKey
              then <[aksNodeLabelKey := v]> ret
              else ret) ret aks.

(** mergeSystemNodeLabels.  [ret := capz] copies the reference, not the
    map: the writes land in the map [capz] refers to.  A write to a nil
    map panics ([None]). *)
Definition mergeSystemNodeLabels (capz aks : option loc) (h : heap)
    : option (option loc * heap) :=
  let ret := capz in
  match ret with
  | Some r => Some (ret, <[r := mergeLoop (deref h aks) (deref h ret)]> h)
  | None =>
      if bool_decide (mergeLoop (deref h aks) ∅ = ∅)
      then Some (ret, h)
      else None
  end.

(** The payload built at the end of Parameters (the final return). *)
Definition payload (s : AgentPoolSpec) (nodeLabels : option loc)
    : containerservice.AgentPool :=
  let availabilityZones :=
    if Nat.ltb 0 (len (AvailabilityZones s)) then Some (AvailabilityZones s) else None in
  let replicas := if Z.ltb 0 (Replicas s) then Some (Replicas s) else None in
  let nodeTaints :=
    if Nat.ltb 0 (len (NodeTaints s)) then Some (NodeTaints s) else None in
  let sku := if bool_decide (SKU s = "") then None else Some (SKU s) in
  let vnetSubnetID :=
    if bool_decide (VnetSubnetID s = "") then None else Some (VnetSubnetID s) in
  {| containerservice.Properties := Some
       {| containerservice.AvailabilityZones := availabilityZones;
          containerservice.Count := replicas;
          containerservice.EnableAutoScaling := EnableAutoScaling s;
          containerservice.EnableUltraSSD := EnableUltraSSD s;
          containerservice.MaxCount := MaxCount s;
          containerservice.MaxPods := MaxPods s;
          containerservice.MinCount := MinCount s;
          containerservice.Mode := Mode s;
          containerservice.NodeLabels := nodeLabels;
          containerservice.NodeTaints := nodeTaints;
          containerservice.OrchestratorVersion := Version s;
          containerservice.OsDiskSizeGB := Some (OSDiskSizeGB s);
          containerservice.OsDiskType := to_String (OsDiskType s);
          containerservice.OsType := to_String (OSType s);
          containerservice.ScaleSetPriority := to_String (ScaleSetPriority s);
          containerservice.Type_ := containerservice.AgentPoolTypeVirtualMachineScaleSets;
          containerservice.VMSize := sku;
          containerservice.VnetSubnetID := vnetSubnetID;
          containerservice.EnableNodePublicIP := EnableNodePublicIP s;
          containerservice.NodePublicIPPrefixID := NodePublicIPPrefixID s;
          containerservice.ProvisioningState := None |};
     containerservice.ID := None;
     containerservice.Name := None;
     containerservice.Type_AgentPool := None |}.

(** A projection for the diff: an agent pool with only the eight compared
    fields set, every other field at its zero value. *)
Definition profile (count : option Z) (version : option string) (mode : string)
    (enableAutoScaling : option bool) (minCount maxCount : option Z)
    (nodeLabels : option loc) (nodeTaints : option (slice string))
    : containerservice.AgentPool :=
  {| containerservice.Properties := Some
       {| containerservice.Count := count;
          containerservice.OrchestratorVersion := version;
          containerservice.Mode := mode;
          containerservice.EnableAutoScaling := enableAutoScaling;
          containerservice.MinCount := minCount;
          containerservice.MaxCount := maxCount;
          containerservice.NodeLabels := nodeLabels;
          containerservice.NodeTaints := nodeTaints;
          containerservice.VMSize := None;
          containerservice.OsDiskSizeGB := None;
          containerservice.OsDiskType := "";
          containerservice.VnetSubnetID := None;
          containerservice.MaxPods := None;
          containerservice.OsType := "";
          containerservice.Type_ := "";
          containerservice.ProvisioningState := None;
          containerservice.AvailabilityZones := None;
          containerservice.EnableNodePublicIP := None;
          containerservice.NodePublicIPPrefixID := None;
          containerservice.ScaleSetPriority := "";
          containerservice.EnableUltraSSD := None |};
     containerservice.ID := None;
     containerservice.Name := None;
     containerservice.Type_AgentPool := None |}.

Definition existingProfile (existingPool : containerservice.ManagedClusterAgentPoolProfileProperties)
    : containerservice.AgentPool :=
  profile (containerservice.Count existingPool)
          (containerservice.OrchestratorVersion existingPool)
          (containerservice.Mode existingPool)
          (containerservice.EnableAutoScaling existingPool)
          (containerservice.MinCount existingPool)
          (containerservice.MaxCount existingPool)
          (containerservice.NodeLabels existingPool)
          (containerservice.NodeTaints existingPool).

(** The desired projection, with the count taken from the existing pool
    when autoscaling is enabled, and the taints always taken from it. *)
Definition normalizedProfile (s : AgentPoolSpec)
    (existingPool : containerservice.ManagedClusterAgentPoolProfileProperties)
    : containerservice.AgentPool :=
  profile (if to_Bool (EnableAutoScaling s)
           then containerservice.Count existingPool
           else Some (Replicas s))
          (Version s)
          (Mode s)
          (EnableAutoScaling s)
          (MinCount s)
          (MaxCount s)
          (NodeLabels s)
          (containerservice.NodeTaints existingPool).

Definition nonTerminalMessage (ps : string) : string :=
  "Unable to update existing agent pool in non terminal state. Agent pool must be in one of the following provisioning states: Canceled, Failed, or Succeeded. Actual state: " +:+ ps.

(** Parameters, threading the store of the label maps.  The test
    [normalizedProfile.NodeLabels != nil] reads the reference the projection
    took from the Spec, [s.NodeLabels]. *)
Definition Parameters (s : AgentPoolSpec) (existing : existing_value) (h : heap)
    : outcome * heap :=
  let nodeLabels := NodeLabels s in
  match existing with
  | existing_nil => (Return (Some (payload s nodeLabels)) None, h)
  | existing_other T =>
      (Return None (Some (errors_New (T +:+ " is not a containerservice.AgentPool"))), h)
  | existing_AgentPool existingPool =>
      match containerservice.Properties existingPool with
      | None => (Panic, h)
      | Some props =>
          match containerservice.ProvisioningState props with
          | None => (Panic, h)
          | Some ps =>
              if negb (String.eqb ps infrav1_Canceled)
                 && negb (String.eqb ps infrav1_Failed)
                 && negb (String.eqb ps infrav1_Succeeded)
              then
                (Return None
                   (Some (WithTransientError (errors_New (nonTerminalMessage ps))
                                             (20 * Second))), h)
              else
                if containerservice.cmp_Diff_is_empty h
                     (normalizedProfile s props) (existingProfile props)
                then (Return None None, h)
                else
                  match NodeLabels s with
                  | Some _ =>
                      match mergeSystemNodeLabels (NodeLabels s)
                              (containerservice.NodeLabels props) h with
                      | None => (Panic, h)
                      | Some (nodeLabels, h') =>
                          (Return (Some (payload s nodeLabels)) None, h')
                      end
                  | None => (Return (Some (payload s nodeLabels)) None, h)
                  end
          end
      end
  end.

End agentpools.

(** Modelled from the spec: the agent pool service's Reconcile (the service
    that drives [agentpools.Parameters] is not among the sources).  "The
    service fetches existing state, asks the Spec to render desired
    parameters against that existing state, and if a non-empty change set
    results, submits it to the remote API and waits for completion"; "if
    payload is nil, terminate the attempt successfully with no-op"; a fetch
    that reports NotFound leads to creation. *)
Module agentpools_service.
Import golang agentpools.

Inductive fetched : Type :=
| Found (p : containerservice.AgentPool)
| NotFound
| FetchError (e : error).

Record Future : Type := {
  WaitForCompletion : option error;
  Result : option error
}.

Record Client : Type := {
  Get : string -> string -> fetched;
  CreateOrUpdate : string -> string -> containerservice.AgentPool -> Future * option error
}.

Inductive call : Type :=
| call_Get (resourceGroup name : string)
| call_CreateOrUpdate (resourceGroup name : string) (payload : containerservice.AgentPool).

Definition is_submit (c : call) : bool :=
  match c with
  | call_CreateOrUpdate _ _ _ => true
  | call_Get _ _ => false
  end.

Inductive attempt : Type :=
| attempt_panic
| attempt_done (err : option error).

Definition submit (c : Client) (s : AgentPoolSpec) (p : containerservice.AgentPool)
    : list call * attempt :=
  let rg := ResourceGroupName s in
  let name := ResourceName s in
  let '(future, err) := CreateOrUpdate c rg name p in
  ([call_CreateOrUpdate rg name p],
   match err with
   | Some e => attempt_done (Some (errors_Wrap e ("failed to create or update " +:+ name)))
   | None =>
       match WaitForCompletion future with
       | Some e => attempt_done (Some (errors_Wrap e ("failed to wait for " +:+ name)))
       | None => attempt_done (Result future)
       end
   end).

Definition Reconcile (c : Client) (s : AgentPoolSpec) (h : heap)
    : list call * attempt * heap :=
  let rg := ResourceGroupName s in
  let name := ResourceName s in
  let fetch := [call_Get rg name] in
  let diff existing :=
    match Parameters s existing h with
    | (Panic, h') => (fetch, attempt_panic, h')
    | (Return _ (Some err), h') => (fetch, attempt_done (Some err), h')
    | (Return None None, h') => (fetch, attempt_done None, h')
    | (Return (Some p) None, h') =>
        let '(calls, r) := submit c s p in ((fetch ++ calls)%list, r, h')
    end in
  match Get c rg name with
  | FetchError e =>
      (fetch, attempt_done (Some (errors_Wrap e ("failed to get " +:+ name))), h)
  | NotFound => diff existing_nil
  | Found p => diff (existing_AgentPool p)
  end.

End agentpools_service.

(** ** The SDK's virtual machine types (package compute) *)

Module compute.

Record ImageReference : Type := {
  Publisher : option string;
  Offer : option string;
  Sku : option string;
  Version : option string;
  ID : option string
}.

Record ManagedDiskParameters : Type := { StorageAccountType : string }.

Record OSDisk : Type := {
  Name : option string;
  OsType : string;
  CreateOption : string;
  DiskSizeGB : option Z;
  ManagedDisk : option ManagedDiskParameters
}.

Definition DiskCreateOptionTypesFromImage : string := "FromImage".

Record StorageProfile : Type := {
  ImageReference_ : option ImageReference;
  OsDisk : option OSDisk
}.

Record HardwareProfile : Type := { VMSize : string }.

Record SSHPublicKey : Type := {
  Path : option string;
  KeyData : option string
}.

Record SSHConfiguration : Type := { PublicKeys : option (list SSHPublicKey) }.

Record LinuxConfiguration : Type := { SSH : option SSHConfiguration }.

Record OSProfile : Type := {
  ComputerName : option string;
  AdminUsername : option string;
  AdminPassword : option string;
  CustomData : option string;
  LinuxConfiguration_ : option LinuxConfiguration
}.

Record NetworkInterfaceReferenceProperties : Type := { Primary : option bool }.

Record NetworkInterfaceReference : Type := {
  NIC_ID : option string;
  NetworkInterfaceReferenceProperties_ : option NetworkInterfaceReferenceProperties
}.

Record NetworkProfile : Type := {
  NetworkInterfaces : option (list NetworkInterfaceReference)
}.

Record VirtualMachineProperties : Type := {
  HardwareProfile_ : option HardwareProfile;
  StorageProfile_ : option StorageProfile;
  OsProfile : option OSProfile;
  NetworkProfile_ : option NetworkProfile
}.

Record VirtualMachine : Type := {
  Location : option string;
  Tags : option (gmap string (option string));
  VirtualMachineProperties_ : option VirtualMachineProperties;
  Zones : option (list string)
}.

(** compute.VirtualMachine{}: the zero value. *)
Definition VirtualMachine_zero : VirtualMachine :=
  {| Location := None; Tags := None; VirtualMachineProperties_ := None; Zones := None |}.

End compute.

(** The API types the VM spec carries (package infrav1, api/v1alpha2; the
    declarations are not among the sources, the fields are those the code
    reads). *)
Module infrav1.

Record Image : Type := {
  Publisher : option string;
  Offer : option string;
  SKU : option string;
  ID : option string;
  SubscriptionID : option string;
  ResourceGroup : option string;
  Gallery : option string;
  Name : option string;
  Version : option string
}.

Record ManagedDisk : Type := { StorageAccountType : string }.

Record OSDisk : Type := {
  OSType : string;
  DiskSizeGB : Z;
  ManagedDisk_ : ManagedDisk
}.

(** infrav1.BuildParams, the input of infrav1.Build. *)
Record BuildParams : Type := {
  ClusterName : string;
  Lifecycle : string;
  BuildName : option string;
  Role : option string;
  Additional : gmap string string
}.

(** infrav1.VM, the provider-independent view [converters.SDKToVM] builds;
    opaque to this code. *)
Record VM : Type := { VM_ID : string; VM_Name : string; VM_State : string }.

End infrav1.

(** ** encoding/base64 of the Go standard library: URLEncoding *)

Module base64.

Definition encodeURL : string :=
  "ABCDEFGHIJKLMNOPQRSTUVWXYZabcdefghijklmnopqrstuvwxyz0123456789-_".

Definition StdPadding : ascii := "="%char.

(** [enc.encode[val & 0x3F]] *)
Definition encode (val : N) : ascii :=
  default StdPadding (String.get (N.to_nat (N.land val 63)) encodeURL).

Definition uint (b : Byte.byte) : N := Byte.to_N b.

(** Three source bytes give four characters; a remainder of one or two
    bytes is padded. *)
Fixpoint EncodeToString (src : list Byte.byte) : string :=
  match src with
  | [] => ""
  | [b0] =>
      let val := N.shiftl (uint b0) 16 in
      String (encode (N.shiftr val 18))
        (String (encode (N.shiftr val 12))
           (String StdPadding (String StdPadding "")))
  | [b0; b1] =>
      let val := N.lor (N.shiftl (uint b0) 16) (N.shiftl (uint b1) 8) in
      String (encode (N.shiftr val 18))
        (String (encode (N.shiftr val 12))
           (String (encode (N.shiftr val 6)) (String StdPadding "")))
  | b0 :: b1 :: b2 :: rest =>
      let val := N.lor (N.lor (N.shiftl (uint b0) 16) (N.shiftl (uint b1) 8)) (uint b2) in
      String (encode (N.shiftr val 18))
        (String (encode (N.shiftr val 12))
           (String (encode (N.shiftr val 6))
              (String (encode val) (EncodeToString rest))))
  end.

End base64.

(** ** Package virtualmachines *)

Module virtualmachines.
Import golang.

(** Key material of crypto/rsa and x/crypto/ssh, opaque to this code. *)
Definition PrivateKey := list Byte.byte.
Definition PublicKey := list Byte.byte.

(** What this package takes from the rest of the repository and from the
    cryptographic libraries: azure.ResourceNotFound, azure.DefaultUserName,
    azure.GenerateOSDiskName, infrav1.ClusterAzureCloudProviderTagKey,
    infrav1.ResourceLifecycleOwned, converters.TagsToMap after
    infrav1.Build, converters.SDKToVM, ssh.NewPublicKey and
    ssh.MarshalAuthorizedKey. *)
Class Collaborators : Type := {
  ResourceNotFound : error -> bool;
  DefaultUserName : string;
  GenerateOSDiskName : string -> string;
  ClusterAzureCloudProviderTagKey : string -> string;
  ResourceLifecycleOwned : string;
  TagsToMap_Build : infrav1.BuildParams -> option (gmap string (option string));
  SDKToVM : compute.VirtualMachine -> option infrav1.VM * option error;
  ssh_NewPublicKey : PrivateKey -> PublicKey + error;
  ssh_MarshalAuthorizedKey : PublicKey -> string
}.

(** The randomness one run draws: the outcome of rsa.GenerateKey on
    rand.Reader, and what rand.Read delivers (an error, or the bytes at
    each position of the buffer). *)
Record Entropy : Type := {
  rsa_GenerateKey : PrivateKey + error;
  rand_Read_err : option error;
  rand_Read_byte : nat -> Byte.byte
}.

Record Spec : Type := {
  Name : string;
  NICName : string;
  SSHKeyData : string;
  Size : string;
  Zone : string;
  Image : infrav1.Image;
  OSDisk : infrav1.OSDisk;
  CustomData : string
}.

(** The [spec interface{}] argument: a [*Spec], or anything else. *)
Inductive spec_value : Type :=
| spec_VM (vmSpec : Spec)
| spec_other.

(** The handle of a long-running operation: what waiting on it and asking
    for its result return. *)
Record Future : Type := {
  WaitForCompletionRef : option error;
  Result : option error
}.

(** The value networkinterfaces' Get returns in its interface{}. *)
Inductive nic_value : Type :=
| nic_nil
| nic_Interface (ID : option string)
| nic_other.

(** The service: its scopes' data and the responses of the clients it
    calls. *)
Record Service : Type := {
  ResourceGroup : string;
  Location : string;
  ClusterName : string;
  MachineName : string;
  MachineRole : string;
  AdditionalTags : gmap string string;
  Client_Get : string -> string -> compute.VirtualMachine * option error;
  Client_CreateOrUpdate :
    string -> string -> compute.VirtualMachine -> Future * option error;
  Client_Delete : string -> string -> Future * option error;
  NIC_Get : string -> nic_value * option error
}.

(** The value Get returns in its interface{}. *)
Inductive get_value : Type :=
| value_nil
| value_SDK (vm : compute.VirtualMachine)
| value_VM (vm : option infrav1.VM).

Inductive call : Type :=
| call_CreateOrUpdate (resourceGroup name : string) (vm : compute.VirtualMachine)
| call_Delete (resourceGroup name : string).

Section with_collaborators.
Context `{Collaborators}.

Definition Get (s : Service) (spec : spec_value) : get_value * option error :=
  match spec with
  | spec_other =>
      (value_SDK compute.VirtualMachine_zero, Some (errors_New "invalid vm specification"))
  | spec_VM vmSpec =>
      let '(vm, err) := Client_Get s (ResourceGroup s) (Name vmSpec) in
      match err with
      | Some e =>
          if ResourceNotFound e
          then (value_nil, Some (errors_Wrap e ("vm " +:+ Name vmSpec +:+ " not found")))
          else (value_SDK vm, Some e)
      | None =>
          let '(v, e) := SDKToVM vm in (value_VM v, e)
      end
  end.

Definition generateSIGImageID (image : infrav1.Image) : string * option error :=
  match infrav1.SubscriptionID image with
  | None => ("", Some (errors_New "Image subscription ID cannot be nil when specifying an image from an Azure Shared Image Gallery"))
  | Some subscriptionID =>
  match infrav1.ResourceGroup image with
  | None => ("", Some (errors_New "Image resource group cannot be nil when specifying an image from an Azure Shared Image Gallery"))
  | Some resourceGroup =>
  match infrav1.Gallery image with
  | None => ("", Some (errors_New "Image gallery cannot be nil when specifying an image from an Azure Shared Image Gallery"))
  | Some gallery =>
  match infrav1.Name image with
  | None => ("", Some (errors_New "Image name cannot be nil when specifying an image from an Azure Shared Image Gallery"))
  | Some name =>
  match infrav1.Version image with
  | None => ("", Some (errors_New "Image version cannot be nil when specifying an image from an Azure Shared Image Gallery"))
  | Some version =>
      ("/subscriptions/" +:+ subscriptionID +:+ "/resourceGroups/" +:+ resourceGroup
         +:+ "/providers/Microsoft.Compute/galleries/" +:+ gallery
         +:+ "/images/" +:+ name +:+ "/versions/" +:+ version, None)
  end end end end end.

Definition generateImagePlan (image : infrav1.Image)
    : option compute.ImageReference * option error :=
  match infrav1.Publisher image with
  | None => (None, Some (errors_New "Image reference cannot be generated, as Publisher field is missing"))
  | Some _ =>
  match infrav1.Offer image with
  | None => (None, Some (errors_New "Image reference cannot be generated, as Offer field is missing"))
  | Some _ =>
  match infrav1.SKU image with
  | None => (None, Some (errors_New "Image reference cannot be generated, as SKU field is missing"))
  | Some _ =>
  match infrav1.Version image with
  | None => (None, Some (errors_New "Image reference cannot be generated, as Version field is missing"))
  | Some _ =>
      (Some {| compute.Publisher := infrav1.Publisher image;
               compute.Offer := infrav1.Offer image;
               compute.Sku := infrav1.SKU image;
               compute.Version := infrav1.Version image;
               compute.ID := None |}, None)
  end end end end.

(** [&compute.ImageReference{}] with its ID set. *)
Definition imageRef_with_ID (id : option string) : compute.ImageReference :=
  {| compute.Publisher := None; compute.Offer := None; compute.Sku := None;
     compute.Version := None; compute.ID := id |}.

Definition generateImageReference (image : infrav1.Image)
    : option compute.ImageReference * option error :=
  match infrav1.ID image with
  | Some _ => (Some (imageRef_with_ID (infrav1.ID image)), None)
  | None =>
      match generateSIGImageID image with
      | (imageID, None) => (Some (imageRef_with_ID (Some imageID)), None)
      | (_, Some _) => generateImagePlan image
      end
  end.

Definition generateStorageProfile (vmSpec : Spec)
    : option compute.StorageProfile * option error :=
  let osDisk :=
    {| compute.Name := Some (GenerateOSDiskName (Name vmSpec));
       compute.OsType := infrav1.OSType (OSDisk vmSpec);
       compute.CreateOption := compute.DiskCreateOptionTypesFromImage;
       compute.DiskSizeGB := Some (infrav1.DiskSizeGB (OSDisk vmSpec));
       compute.ManagedDisk := Some
         {| compute.StorageAccountType :=
              infrav1.StorageAccountType (infrav1.ManagedDisk_ (OSDisk vmSpec)) |} |} in
  match generateImageReference (Image vmSpec) with
  | (_, Some err) => (None, Some err)
  | (imageRef, None) =>
      (Some {| compute.OsDisk := Some osDisk; compute.ImageReference_ := imageRef |}, None)
  end.

(** GenerateRandomString: [n] random bytes, URL-safe base64 encoded. *)
Definition GenerateRandomString (n : nat) (rnd : Entropy) : string * option error :=
  let b := map (rand_Read_byte rnd) (seq 0 n) in
  match rand_Read_err rnd with
  | Some err => ("", Some err)
  | None => (base64.EncodeToString b, None)
  end.

(** Reconcile up to the submission: the virtual machine it is about to
    submit, or the error it returns before it gets there. *)
Definition Reconcile_payload (s : Service) (vmSpec : Spec) (rnd : Entropy)
    : compute.VirtualMachine + error :=
  match generateStorageProfile vmSpec with
  | (_, Some err) => inr err
  | (storageProfile, None) =>
  match NIC_Get s (NICName vmSpec) with
  | (_, Some err) => inr err
  | (nic_nil, None) | (nic_other, None) =>
      inr (errors_New "error getting network security group")
  | (nic_Interface nic_ID, None) =>
  let sshKeyData : string + error :=
    if bool_decide (SSHKeyData vmSpec = "") then
      match rsa_GenerateKey rnd with
      | inr perr => inr (errors_Wrap perr "Failed to generate private key")
      | inl privateKey =>
          match ssh_NewPublicKey privateKey with
          | inr perr => inr (errors_Wrap perr "Failed to generate public key")
          | inl publicRsaKey => inl (ssh_MarshalAuthorizedKey publicRsaKey)
          end
      end
    else inl (SSHKeyData vmSpec) in
  match sshKeyData with
  | inr err => inr err
  | inl sshKeyData =>
  match GenerateRandomString 32 rnd with
  | (_, Some err) => inr (errors_Wrap err "failed to generate random string")
  | (randomPassword, None) =>
  let additionalTags :=
    <[ClusterAzureCloudProviderTagKey (MachineName s) := ResourceLifecycleOwned]>
      (AdditionalTags s) in
  inl {| compute.Location := Some (Location s);
         compute.Tags := TagsToMap_Build
           {| infrav1.ClusterName := ClusterName s;
              infrav1.Lifecycle := ResourceLifecycleOwned;
              infrav1.BuildName := Some (MachineName s);
              infrav1.Role := Some (MachineRole s);
              infrav1.Additional := additionalTags |};
         compute.VirtualMachineProperties_ := Some
           {| compute.HardwareProfile_ := Some {| compute.VMSize := Size vmSpec |};
              compute.StorageProfile_ := storageProfile;
              compute.OsProfile := Some
                {| compute.ComputerName := Some (Name vmSpec);
                   compute.AdminUsername := Some DefaultUserName;
                   compute.AdminPassword := Some randomPassword;
                   compute.CustomData := Some (CustomData vmSpec);
                   compute.LinuxConfiguration_ := Some
                     {| compute.SSH := Some
                          {| compute.PublicKeys := Some
                               [ {| compute.Path :=
                                      Some ("/home/" +:+ DefaultUserName +:+ "/.ssh/authorized_keys");
                                    compute.KeyData := Some sshKeyData |} ] |} |} |};
              compute.NetworkProfile_ := Some
                {| compute.NetworkInterfaces := Some
                     [ {| compute.NIC_ID := nic_ID;
                          compute.NetworkInterfaceReferenceProperties_ :=
                            Some {| compute.Primary := Some true |} |} ] |} |};
         compute.Zones :=
           if bool_decide (Zone vmSpec = "") then None else Some [Zone vmSpec] |}
  end end end end.

(** Reconcile: the calls it makes on the VM client and the error it
    returns. *)
Definition Reconcile (s : Service) (spec : spec_value) (rnd : Entropy)
    : list call * option error :=
  match spec with
  | spec_other => ([], Some (errors_New "invalid vm specification"))
  | spec_VM vmSpec =>
      match Reconcile_payload s vmSpec rnd with
      | inr err => ([], Some err)
      | inl virtualMachine =>
          let '(future, err) :=
            Client_CreateOrUpdate s (ResourceGroup s) (Name vmSpec) virtualMachine in
          ([call_CreateOrUpdate (ResourceGroup s) (Name vmSpec) virtualMachine],
           match err with
           | Some e => Some (errors_Wrap e "cannot create vm")
           | None =>
               match WaitForCompletionRef future with
               | Some e =>
                   Some (errors_Wrap e "cannot get the vm create or update future response")
               | None => Result future
               end
           end)
      end
  end.

Definition Delete (s : Service) (spec : spec_value) : list call * option error :=
  match spec with
  | spec_other => ([], Some (errors_New "invalid vm Specification"))
  | spec_VM vmSpec =>
      let '(future, err) := Client_Delete s (ResourceGroup s) (Name vmSpec) in
      ([call_Delete (ResourceGroup s) (Name vmSpec)],
       match err with
       | Some e =>
           if ResourceNotFound e
           then None
           else Some (errors_Wrap e
                        ("failed to delete vm " +:+ Name vmSpec
                           +:+ " in resource group " +:+ ResourceGroup s))
       | None =>
           match WaitForCompletionRef future with
           | Some e => Some (errors_Wrap e "cannot delete, future response")
           | None => Result future
           end
       end)
  end.

End with_collaborators.

End virtualmachines.

(** ** Vocabulary of the properties *)

Module agentpools_terms.
Import golang agentpools.

(** The terminal provisioning states. *)
Definition terminal (ps : string) : Prop :=
  ps = infrav1_Succeeded \/ ps = infrav1_Failed \/ ps = infrav1_Canceled.

(** The decision a call reports: no-op, that is (nil, nil), or not. *)
Definition is_noop (r : outcome * heap) : bool :=
  match fst r with
  | Return None None => true
  | _ => false
  end.

(** The spec [s] with other taints and every other field as it is. *)
Definition with_NodeTaints (s : AgentPoolSpec) (taints : slice string) : AgentPoolSpec :=
  {| Name := Name s;
     ResourceGroup := ResourceGroup s;
     Cluster := Cluster s;
     Version := Version s;
     SKU := SKU s;
     Replicas := Replicas s;
     OSDiskSizeGB := OSDiskSizeGB s;
     VnetSubnetID := VnetSubnetID s;
     Mode := Mode s;
     MaxCount := MaxCount s;
     MinCount := MinCount s;
     NodeLabels := NodeLabels s;
     NodeTaints := taints;
     EnableAutoScaling := EnableAutoScaling s;
     AvailabilityZones := AvailabilityZones s;
     MaxPods := MaxPods s;
     OsDiskType := OsDiskType s;
     EnableUltraSSD := EnableUltraSSD s;
     OSType := OSType s;
     Headers := Headers s;
     EnableNodePublicIP := EnableNodePublicIP s;
     NodePublicIPPrefixID := NodePublicIPPrefixID s;
     ScaleSetPriority := ScaleSetPriority s |}.

(** The call returned a payload, and the label map that payload refers to
    holds [v] at key [k] once the call is over. *)
Definition payload_has_label (r : outcome * heap) (k : string) (v : option string) : Prop :=
  exists p props,
    fst r = Return (Some p) None
    /\ containerservice.Properties p = Some props
    /\ deref (snd r) (containerservice.NodeLabels props) !! k = Some v.

(** The state of a Spec that outlives a call: the contents of the label map
    its NodeLabels field refers to (its other fields are values). *)
Definition spec_labels (s : AgentPoolSpec) (h : heap) : labels :=
  deref h (NodeLabels s).

End agentpools_terms.

Module virtualmachines_terms.

(** The admin password a payload carries. *)
Definition AdminPassword_of (vm : compute.VirtualMachine) : option string :=
  match compute.VirtualMachineProperties_ vm with
  | Some p =>
      match compute.OsProfile p with
      | Some o => compute.AdminPassword o
      | None => None
      end
  | None => None
  end.

(** The SSH key data a payload carries, one entry per public key. *)
Definition KeyData_of (vm : compute.VirtualMachine) : list (option string) :=
  match compute.VirtualMachineProperties_ vm with
  | Some p =>
      match compute.OsProfile p with
      | Some o =>
          match compute.LinuxConfiguration_ o with
          | Some lc =>
              match compute.SSH lc with
              | Some ssh => map compute.KeyData (default [] (compute.PublicKeys ssh))
              | None => []
              end
          | None => []
          end
      | None => []
      end
  | None => []
  end.

(** The payload with its admin password blanked and every other field as
    it is. *)
Definition without_AdminPassword (vm : compute.VirtualMachine) : compute.VirtualMachine :=
  {| compute.Location := compute.Location vm;
     compute.Tags := compute.Tags vm;
     compute.VirtualMachineProperties_ :=
       (fun p =>
          {| compute.HardwareProfile_ := compute.HardwareProfile_ p;
             compute.StorageProfile_ := compute.StorageProfile_ p;
             compute.OsProfile :=
               (fun o =>
                  {| compute.ComputerName := compute.ComputerName o;
                     compute.AdminUsername := compute.AdminUsername o;
                     compute.AdminPassword := None;
                     compute.CustomData := compute.CustomData o;
                     compute.LinuxConfiguration_ := compute.LinuxConfiguration_ o |})
                 <$> compute.OsProfile p;
             compute.NetworkProfile_ := compute.NetworkProfile_ p |})
         <$> compute.VirtualMachineProperties_ vm;
     compute.Zones := compute.Zones vm |}.

(** The payload of a run of the payload construction, if it built one. *)
Definition payload_of (r : compute.VirtualMachine + golang.error)
    : option compute.VirtualMachine :=
  match r with
  | inl vm => Some vm
  | inr _ => None
  end.

End virtualmachines_terms.

(** ** Concrete inputs used by the examples below *)

Module samples.
Import golang.

(** Two label maps in the store: at 1 the labels a Spec declares, at 2 the
    labels the provider reports, among them one it injected itself. *)
Definition store : heap :=
  {[ 1%positive := {[ "env" := Some "prod" ]};
     2%positive := {[ "env" := Some "prod";
                      "kubernetes.azure.com/cluster" := Some "MC_rg_aks_westeurope" ]} ]}.

Definition pool_spec (replicas : Z) (autoscale : option bool)
    (nodeLabels : option loc) (taints : slice string) : agentpools.AgentPoolSpec :=
  {| agentpools.Name := "pool0";
     agentpools.ResourceGroup := "rg";
     agentpools.Cluster := "aks";
     agentpools.Version := Some "1.22.6";
     agentpools.SKU := "Standard_D2s_v3";
     agentpools.Replicas := replicas;
     agentpools.OSDiskSizeGB := 128;
     agentpools.VnetSubnetID := "";
     agentpools.Mode := "User";
     agentpools.MaxCount := Some 5;
     agentpools.MinCount := Some 1;
     agentpools.NodeLabels := nodeLabels;
     agentpools.NodeTaints := taints;
     agentpools.EnableAutoScaling := autoscale;
     agentpools.AvailabilityZones := nil_slice;
     agentpools.MaxPods := None;
     agentpools.OsDiskType := None;
     agentpools.EnableUltraSSD := None;
     agentpools.OSType := Some "Linux";
     agentpools.Headers := None;
     agentpools.EnableNodePublicIP := None;
     agentpools.NodePublicIPPrefixID := None;
     agentpools.ScaleSetPriority := None |}.

Definition pool_props (ps : string) (count : Z) (autoscale : option bool)
    (nodeLabels : option loc)
    : containerservice.ManagedClusterAgentPoolProfileProperties :=
  {| containerservice.Count := Some count;
     containerservice.VMSize := Some "Standard_D2s_v3";
     containerservice.OsDiskSizeGB := Some 128;
     containerservice.OsDiskType := "Managed";
     containerservice.VnetSubnetID := None;
     containerservice.MaxPods := Some 110;
     containerservice.OsType := "Linux";
     containerservice.MaxCount := Some 5;
     containerservice.MinCount := Some 1;
     containerservice.EnableAutoScaling := autoscale;
     containerservice.Type_ := "VirtualMachineScaleSets";
     containerservice.Mode := "User";
     containerservice.OrchestratorVersion := Some "1.22.6";
     containerservice.ProvisioningState := Some ps;
     containerservice.AvailabilityZones := None;
     containerservice.EnableNodePublicIP := None;
     containerservice.NodePublicIPPrefixID := None;
     containerservice.ScaleSetPriority := "";
     containerservice.NodeLabels := nodeLabels;
     containerservice.NodeTaints := None;
     containerservice.EnableUltraSSD := None |}.

Definition pool (ps : string) (count : Z) (autoscale : option bool)
    (nodeLabels : option loc) : containerservice.AgentPool :=
  {| containerservice.Properties := Some (pool_props ps count autoscale nodeLabels);
     containerservice.ID := Some "/subscriptions/0/resourceGroups/rg/providers/Microsoft.ContainerService/managedClusters/aks/agentPools/pool0";
     containerservice.Name := Some "pool0";
     containerservice.Type_AgentPool := Some "Microsoft.ContainerService/managedClusters/agentPools" |}.

(** A client that finds the given pool and accepts every submission. *)
Definition pool_client (p : containerservice.AgentPool) : agentpools_service.Client :=
  {| agentpools_service.Get := fun _ _ => agentpools_service.Found p;
     agentpools_service.CreateOrUpdate := fun _ _ _ =>
       ({| agentpools_service.WaitForCompletion := None;
           agentpools_service.Result := None |}, None) |}.

(** One choice of the collaborators of package virtualmachines: a fetch or
    delete reports absence by a DetailedError with status 404. *)
Definition collaborators : virtualmachines.Collaborators :=
  {| virtualmachines.ResourceNotFound := fun e =>
       match e with
       | DetailedError 404 _ => true
       | _ => false
       end;
     virtualmachines.DefaultUserName := "capi";
     virtualmachines.GenerateOSDiskName := fun name => name +:+ "_OSDisk";
     virtualmachines.ClusterAzureCloudProviderTagKey := fun name =>
       "kubernetes.io_cluster_" +:+ name;
     virtualmachines.ResourceLifecycleOwned := "owned";
     virtualmachines.TagsToMap_Build := fun params =>
       Some (Some <$> infrav1.Additional params);
     virtualmachines.SDKToVM := fun vm =>
       (Some {| infrav1.VM_ID := "/subscriptions/0/resourceGroups/rg/providers/Microsoft.Compute/virtualMachines/vm0";
                infrav1.VM_Name := "vm0";
                infrav1.VM_State := "Succeeded" |}, None);
     virtualmachines.ssh_NewPublicKey := fun k => inl k;
     virtualmachines.ssh_MarshalAuthorizedKey := fun k =>
       "ssh-rsa " +:+ base64.EncodeToString k |}.

Definition accepted : virtualmachines.Future :=
  {| virtualmachines.WaitForCompletionRef := None; virtualmachines.Result := None |}.

(** A VM service whose fetch and delete answer with the given error (or
    succeed), and whose other calls succeed. *)
Definition vm_service (fetch_err delete_err : option error) : virtualmachines.Service :=
  {| virtualmachines.ResourceGroup := "rg";
     virtualmachines.Location := "westeurope";
     virtualmachines.ClusterName := "cluster0";
     virtualmachines.MachineName := "machine0";
     virtualmachines.MachineRole := "node";
     virtualmachines.AdditionalTags := {[ "team" := "infra" ]};
     virtualmachines.Client_Get := fun _ _ => (compute.VirtualMachine_zero, fetch_err);
     virtualmachines.Client_CreateOrUpdate := fun _ _ _ => (accepted, None);
     virtualmachines.Client_Delete := fun _ _ => (accepted, delete_err);
     virtualmachines.NIC_Get := fun _ =>
       (virtualmachines.nic_Interface
          (Some "/subscriptions/0/resourceGroups/rg/providers/Microsoft.Network/networkInterfaces/nic0"),
        None) |}.

Definition image (id : option string) (gallery publisher : option string) : infrav1.Image :=
  {| infrav1.Publisher := publisher;
     infrav1.Offer := Some "capi";
     infrav1.SKU := Some "k8s-1dot16-ubuntu-1804";
     infrav1.ID := id;
     infrav1.SubscriptionID := Some "0000";
     infrav1.ResourceGroup := Some "images";
     infrav1.Gallery := gallery;
     infrav1.Name := Some "ubuntu";
     infrav1.Version := Some "1.2.3" |}.

Definition vm_spec (sshKeyData : string) : virtualmachines.Spec :=
  {| virtualmachines.Name := "vm0";
     virtualmachines.NICName := "nic0";
     virtualmachines.SSHKeyData := sshKeyData;
     virtualmachines.Size := "Standard_B2ms";
     virtualmachines.Zone := "1";
     virtualmachines.Image := image (Some "/subscriptions/0/images/custom") None None;
     virtualmachines.OSDisk :=
       {| infrav1.OSType := "Linux";
          infrav1.DiskSizeGB := 30;
          infrav1.ManagedDisk_ := {| infrav1.StorageAccountType := "Premium_LRS" |} |};
     virtualmachines.CustomData := "I2Nsb3VkLWNvbmZpZw==" |}.

(** A random source that delivers the byte [b] at every position. *)
Definition entropy (b : Byte.byte) : virtualmachines.Entropy :=
  {| virtualmachines.rsa_GenerateKey := inl [b; b; b];
     virtualmachines.rand_Read_err := None;
     virtualmachines.rand_Read_byte := fun _ => b |}.

End samples.

(** ** Vocabulary of the further properties *)

Module more_terms.
Import golang agentpools.

(** The label map of the existing value, as the merge reads it: the map the
    agent pool's properties refer to, empty for anything else. *)
Definition existing_labels (existing : existing_value) (h : heap) : labels :=
  match existing with
  | existing_AgentPool e =>
      match containerservice.Properties e with
      | Some props => deref h (containerservice.NodeLabels props)
      | None => ∅
      end
  | _ => ∅
  end.

(** Two specs that agree on the fields the diff and the merge read. *)
Definition same_diff_fields (s1 s2 : AgentPoolSpec) : Prop :=
  Replicas s1 = Replicas s2
  /\ Version s1 = Version s2
  /\ Mode s1 = Mode s2
  /\ EnableAutoScaling s1 = EnableAutoScaling s2
  /\ MinCount s1 = MinCount s2
  /\ MaxCount s1 = MaxCount s2
  /\ NodeLabels s1 = NodeLabels s2.

(** The error a call returned, if it returned one. *)
Definition returned_error (r : outcome * heap) : option error :=
  match fst r with
  | Return _ err => err
  | Panic => None
  end.

(** A map holds no label whose key has the system prefix. *)
Definition no_system_label (m : labels) : Prop :=
  forall k v, m !! k = Some v -> IsAzureSystemNodeLabelKey k = false.

End more_terms.

(** An inverse of [base64.EncodeToString], to show that the encoding loses
    nothing, and the characters that are safe in a URL. *)
Module base64_inverse.

(** The position of a character in the alphabet. *)
Fixpoint index (c : ascii) (alphabet : string) (i : N) : option N :=
  match alphabet with
  | EmptyString => None
  | String d rest => if Ascii.eqb c d then Some i else index c rest (N.succ i)
  end.

Definition decodeMap (c : ascii) : option N := index c base64.encodeURL 0%N.

Definition byte_of (n : N) : Byte.byte := default Byte.x00 (Byte.of_N n).

(** Four characters give three bytes; a final group with padding gives one
    or two. *)
Fixpoint DecodeString (s : string) : option (list Byte.byte) :=
  match s with
  | EmptyString => Some []
  | String c0 (String c1 (String c2 (String c3 rest))) =>
      match decodeMap c0, decodeMap c1 with
      | Some s0, Some s1 =>
          if Ascii.eqb c3 base64.StdPadding then
            match rest with
            | EmptyString =>
                if Ascii.eqb c2 base64.StdPadding
                then Some [byte_of (s0 * 4 + s1 / 16)%N]
                else
                  match decodeMap c2 with
                  | Some s2 =>
                      let v := (s0 * 262144 + s1 * 4096 + s2 * 64)%N in
                      Some [byte_of (v / 65536)%N; byte_of ((v / 256) mod 256)%N]
                  | None => None
                  end
            | _ => None
            end
          else
            match decodeMap c2, decodeMap c3, DecodeString rest with
            | Some s2, Some s3, Some tl =>
                let v := (s0 * 262144 + s1 * 4096 + s2 * 64 + s3)%N in
                Some (byte_of (v / 65536)%N :: byte_of ((v / 256) mod 256)%N
                        :: byte_of (v mod 256)%N :: tl)
            | _, _, _ => None
            end
      | _, _ => None
      end
  | _ => None
  end.

(** Letters, digits, '-', '_' and the padding '='. *)
Definition url_safe (c : ascii) : bool :=
  let n := nat_of_ascii c in
  (Nat.leb 65 n && Nat.leb n 90) || (Nat.leb 97 n && Nat.leb n 122)
  || (Nat.leb 48 n && Nat.leb n 57)
  || Nat.eqb n 45 || Nat.eqb n 95 || Nat.eqb n 61.

(** One entry of the table is in order: the six-bit value is encoded by a
    character that is safe in a URL, is not the padding, and decodes back to
    the value. *)
Definition table_ok (i : N) : bool :=
  match decodeMap (base64.encode i) with
  | Some j => N.eqb i j
  | None => false
  end
  && negb (Ascii.eqb (base64.encode i) base64.StdPadding)
  && url_safe (base64.encode i).

(** The bytes a random source delivers for a buffer of [n] bytes. *)
Definition bytes_read (rnd : virtualmachines.Entropy) (n : nat) : list Byte.byte :=
  map (virtualmachines.rand_Read_byte rnd) (seq 0 n).

End base64_inverse.

Module more_vm_terms.
Import golang.

(** The message generateImagePlan gives for a missing field. *)
Definition missing_field_message (field : string) : string :=
  "Image reference cannot be generated, as " +:+ field +:+ " field is missing".

(** The five shared-gallery coordinates are all present. *)
Definition gallery_complete (image : infrav1.Image) : Prop :=
  is_Some (infrav1.SubscriptionID image) /\ is_Some (infrav1.ResourceGroup image)
  /\ is_Some (infrav1.Gallery image) /\ is_Some (infrav1.Name image)
  /\ is_Some (infrav1.Version image).

(** The four marketplace fields are all present. *)
Definition marketplace_complete (image : infrav1.Image) : Prop :=
  is_Some (infrav1.Publisher image) /\ is_Some (infrav1.Offer image)
  /\ is_Some (infrav1.SKU image) /\ is_Some (infrav1.Version image).

(** An image reference that addresses by ID only. *)
Definition by_ID (r : compute.ImageReference) : Prop :=
  is_Some (compute.ID r) /\ compute.Publisher r = None /\ compute.Offer r = None
  /\ compute.Sku r = None /\ compute.Version r = None.

(** An image reference that addresses by the marketplace fields only. *)
Definition by_marketplace (r : compute.ImageReference) : Prop :=
  compute.ID r = None /\ is_Some (compute.Publisher r) /\ is_Some (compute.Offer r)
  /\ is_Some (compute.Sku r) /\ is_Some (compute.Version r).

End more_vm_terms.

Module more_samples.
Import golang.

(** A spec like [samples.pool_spec] that asks for another VM size, disk size
    and pod limit. *)
Definition resized_pool_spec (replicas : Z) (nodeLabels : option loc)
    : agentpools.AgentPoolSpec :=
  {| agentpools.Name := "pool0";
     agentpools.ResourceGroup := "rg";
     agentpools.Cluster := "aks";
     agentpools.Version := Some "1.22.6";
     agentpools.SKU := "Standard_D8s_v3";
     agentpools.Replicas := replicas;
     agentpools.OSDiskSizeGB := 512;
     agentpools.VnetSubnetID := "/subscriptions/0/subnets/nodes";
     agentpools.Mode := "User";
     agentpools.MaxCount := Some 5;
     agentpools.MinCount := Some 1;
     agentpools.NodeLabels := nodeLabels;
     agentpools.NodeTaints := nil_slice;
     agentpools.EnableAutoScaling := None;
     agentpools.AvailabilityZones := mk_slice ["1"; "2"];
     agentpools.MaxPods := Some 30;
     agentpools.OsDiskType := Some "Ephemeral";
     agentpools.EnableUltraSSD := Some true;
     agentpools.OSType := Some "Linux";
     agentpools.Headers := None;
     agentpools.EnableNodePublicIP := None;
     agentpools.NodePublicIPPrefixID := None;
     agentpools.ScaleSetPriority := Some "Spot" |}.

(** A store with an empty, non-nil label map at 3. *)
Definition store_with_empty : heap := <[3%positive := ∅]> samples.store.

(** A VM spec like [samples.vm_spec] with another image. *)
Definition vm_spec_with_image (image : infrav1.Image) : virtualmachines.Spec :=
  {| virtualmachines.Name := "vm0";
     virtualmachines.NICName := "nic0";
     virtualmachines.SSHKeyData := "ssh-rsa AAAAB3NzaC1yc2E";
     virtualmachines.Size := "Standard_B2ms";
     virtualmachines.Zone := "";
     virtualmachines.Image := image;
     virtualmachines.OSDisk :=
       {| infrav1.OSType := "Linux";
          infrav1.DiskSizeGB := 30;
          infrav1.ManagedDisk_ := {| infrav1.StorageAccountType := "Premium_LRS" |} |};
     virtualmachines.CustomData := "" |}.

(** A VM service like [samples.vm_service] whose network interface lookup
    answers as given. *)
Definition vm_service_with_nic (nic : virtualmachines.nic_value) (err : option error)
    : virtualmachines.Service :=
  {| virtualmachines.ResourceGroup := "rg";
     virtualmachines.Location := "westeurope";
     virtualmachines.ClusterName := "cluster0";
     virtualmachines.MachineName := "machine0";
     virtualmachines.MachineRole := "node";
     virtualmachines.AdditionalTags := ∅;
     virtualmachines.Client_Get := fun _ _ => (compute.VirtualMachine_zero, None);
     virtualmachines.Client_CreateOrUpdate := fun _ _ _ => (samples.accepted, None);
     virtualmachines.Client_Delete := fun _ _ => (samples.accepted, None);
     virtualmachines.NIC_Get := fun _ => (nic, err) |}.

(** A random source whose reader fails. *)
Definition broken_entropy : virtualmachines.Entropy :=
  {| virtualmachines.rsa_GenerateKey := inl [];
     virtualmachines.rand_Read_err := Some (errors_New "unexpected EOF");
     virtualmachines.rand_Read_byte := fun _ => Byte.x00 |}.

(** A random source that delivers the position, modulo 256, at every
    position. *)
Definition counting_entropy : virtualmachines.Entropy :=
  {| virtualmachines.rsa_GenerateKey := inl [];
     virtualmachines.rand_Read_err := None;
     virtualmachines.rand_Read_byte := fun i =>
       default Byte.x00 (Byte.of_N (N.of_nat i mod 256)) |}.

End more_samples.

(** * Properties *)

(** ** Agent pools: the diff and the label merge *)

Module agentpools_facts.
Import golang agentpools agentpools_terms.

Lemma cmp_ptr_refl {A} `{EqDecision A} (x : option A) : cmp_ptr x x = true.
Proof. destruct x as [a|]; simpl; [apply bool_decide_eq_true_2|]; reflexivity. Qed.

Lemma cmp_slice_ptr_refl (t : option (slice string)) : cmp_slice_ptr t t = true.
Proof.
  destruct t as [[|l]|]; simpl; try reflexivity.
  apply bool_decide_eq_true_2; reflexivity.
Qed.

(** Comparing two projections compares their eight fields. *)
Lemma cmp_Equal_profile h c v m a mi ma l t c' v' m' a' mi' ma' l' t' :
  containerservice.cmp_Equal h (profile c v m a mi ma l t)
                               (profile c' v' m' a' mi' ma' l' t')
  = cmp_ptr c c' && cmp_ptr ma ma' && cmp_ptr mi mi' && cmp_ptr a a'
    && bool_decide (m = m') && cmp_ptr v v' && cmp_map h l l'
    && cmp_slice_ptr t t'.
Proof.
  unfold containerservice.cmp_Equal, containerservice.cmp_Properties, profile; cbn.
  rewrite ?andb_true_r. reflexivity.
Qed.

(** Past the terminal-state gate, Parameters is the diff followed by the
    label merge. *)
Lemma Parameters_terminal s e props ps h :
  containerservice.Properties e = Some props ->
  containerservice.ProvisioningState props = Some ps ->
  terminal ps ->
  Parameters s (existing_AgentPool e) h =
    if containerservice.cmp_Diff_is_empty h (normalizedProfile s props) (existingProfile props)
    then (Return None None, h)
    else match NodeLabels s with
         | Some _ =>
             match mergeSystemNodeLabels (NodeLabels s)
                     (containerservice.NodeLabels props) h with
             | None => (Panic, h)
             | Some (nodeLabels, h') => (Return (Some (payload s nodeLabels)) None, h')
             end
         | None => (Return (Some (payload s (NodeLabels s))) None, h)
         end.
Proof.
  intros Hp Hs Ht. unfold Parameters. rewrite Hp, Hs.
  destruct Ht as [-> | [-> | ->]]; reflexivity.
Qed.

Lemma nonterminal_gate ps :
  ps <> infrav1_Succeeded -> ps <> infrav1_Failed -> ps <> infrav1_Canceled ->
  negb (String.eqb ps infrav1_Canceled) && negb (String.eqb ps infrav1_Failed)
    && negb (String.eqb ps infrav1_Succeeded) = true.
Proof.
  intros H1 H2 H3.
  apply String.eqb_neq in H1, H2, H3. rewrite H1, H2, H3. reflexivity.
Qed.

(** The merge loop, key by key: a system key of [aks] takes the value [aks]
    gives it, every other key keeps what [ret] held. *)
Lemma mergeLoop_lookup (aks ret : labels) (k : string) :
  mergeLoop aks ret !! k =
    if IsAzureSystemNodeLabelKey k
    then match aks !! k with
         | Some v => Some v
         | None => ret !! k
         end
    else ret !! k.
Proof.
  unfold mergeLoop.
  induction aks as [|i x m Hi Hfold IH] using map_first_key_ind.
  - rewrite map_fold_empty, lookup_empty. destruct (IsAzureSystemNodeLabelKey k); reflexivity.
  - rewrite map_fold_insert_first_key by assumption.
    destruct (decide (i = k)) as [->|Hne].
    + rewrite lookup_insert_eq.
      destruct (IsAzureSystemNodeLabelKey k) eqn:Hk.
      * apply lookup_insert_eq.
      * rewrite IH. reflexivity.
    + rewrite (lookup_insert_ne m i k) by assumption.
      destruct (IsAzureSystemNodeLabelKey i).
      * rewrite lookup_insert_ne by assumption. exact IH.
      * exact IH.
Qed.

(** With a non-nil destination the merge never panics; it returns the
    destination's own reference and rewrites the map behind it. *)
Lemma mergeSystemNodeLabels_Some (ls : loc) (aks : option loc) (h : heap) :
  mergeSystemNodeLabels (Some ls) aks h
  = Some (Some ls, <[ls := mergeLoop (deref h aks) (deref h (Some ls))]> h).
Proof. reflexivity. Qed.

(** C1 (terminal-state gate).  For every agent pool spec and every existing
    agent pool whose provisioning state is none of Succeeded, Failed and
    Canceled, Parameters returns no payload and a transient error whose
    suggested retry delay is 20 seconds; the store is left as it was. *)
Theorem Parameters_nonterminal_is_transient s e props ps h :
  containerservice.Properties e = Some props ->
  containerservice.ProvisioningState props = Some ps ->
  ps <> infrav1_Succeeded -> ps <> infrav1_Failed -> ps <> infrav1_Canceled ->
  exists err,
    Parameters s (existing_AgentPool e) h = (Return None (Some err), h)
    /\ err = WithTransientError (errors_New (nonTerminalMessage ps)) (20 * Second)
    /\ IsTransient err = true
    /\ RequeueAfter err = 20 * Second.
Proof.
  intros Hp Hs H1 H2 H3.
  exists (WithTransientError (errors_New (nonTerminalMessage ps)) (20 * Second)).
  split; [|repeat split].
  unfold Parameters. rewrite Hp, Hs, nonterminal_gate by assumption. reflexivity.
Qed.

Lemma Parameters_nonterminal_is_transient_witness :
  exists err,
    Parameters (samples.pool_spec 3 None (Some 1%positive) nil_slice)
               (existing_AgentPool (samples.pool "Updating" 3 None (Some 1%positive)))
               samples.store
    = (Return None (Some err), samples.store)
    /\ err = WithTransientError (errors_New (nonTerminalMessage "Updating")) (20 * Second)
    /\ IsTransient err = true
    /\ RequeueAfter err = 20 * Second.
Proof.
  apply (Parameters_nonterminal_is_transient _ _
           (samples.pool_props "Updating" 3 None (Some 1%positive)) "Updating");
    [reflexivity | reflexivity | discriminate | discriminate | discriminate].
Defined.

(** C2 (idempotence).  For every agent pool spec and every existing agent
    pool in a terminal state, if the normalized projection of the spec's
    desired fields is structurally identical to the projection of the
    existing pool, Parameters returns (nil, nil); a Reconcile that fetches
    this pool then makes its fetch and no submit call, and returns nil. *)
Theorem Parameters_noop_on_equal_projections s e props ps h :
  containerservice.Properties e = Some props ->
  containerservice.ProvisioningState props = Some ps ->
  terminal ps ->
  containerservice.cmp_Equal h (normalizedProfile s props) (existingProfile props) = true ->
  Parameters s (existing_AgentPool e) h = (Return None None, h)
  /\ forall c : agentpools_service.Client,
       agentpools_service.Get c (ResourceGroupName s) (ResourceName s)
         = agentpools_service.Found e ->
       agentpools_service.Reconcile c s h
         = ([agentpools_service.call_Get (ResourceGroupName s) (ResourceName s)],
            agentpools_service.attempt_done None, h)
       /\ existsb agentpools_service.is_submit
            (fst (fst (agentpools_service.Reconcile c s h))) = false.
Proof.
  intros Hp Hs Ht Heq.
  assert (HP : Parameters s (existing_AgentPool e) h = (Return None None, h)).
  { rewrite (Parameters_terminal s e props ps h Hp Hs Ht).
    unfold containerservice.cmp_Diff_is_empty. rewrite Heq. reflexivity. }
  split; [exact HP|].
  intros c Hget. unfold agentpools_service.Reconcile.
  rewrite Hget, HP. split; reflexivity.
Qed.

(** C3 (autoscaling carve-out).  For every agent pool spec with autoscaling
    enabled and every existing agent pool in a terminal state, whatever the
    desired and the existing counts are, if version, mode, autoscaling
    flag, min and max counts and labels compare equal, Parameters returns
    (nil, nil).  (The taints of both projections are the existing ones.) *)
Theorem Parameters_autoscaling_ignores_count s e props ps h :
  to_Bool (EnableAutoScaling s) = true ->
  containerservice.Properties e = Some props ->
  containerservice.ProvisioningState props = Some ps ->
  terminal ps ->
  Version s = containerservice.OrchestratorVersion props ->
  Mode s = containerservice.Mode props ->
  EnableAutoScaling s = containerservice.EnableAutoScaling props ->
  MinCount s = containerservice.MinCount props ->
  MaxCount s = containerservice.MaxCount props ->
  cmp_map h (NodeLabels s) (containerservice.NodeLabels props) = true ->
  Parameters s (existing_AgentPool e) h = (Return None None, h).
Proof.
  intros Ha Hp Hs Ht Hv Hm He Hmin Hmax Hl.
  rewrite (Parameters_terminal s e props ps h Hp Hs Ht).
  unfold containerservice.cmp_Diff_is_empty, normalizedProfile, existingProfile.
  rewrite cmp_Equal_profile, Ha, Hv, Hm, He, Hmin, Hmax, Hl.
  rewrite !cmp_ptr_refl, cmp_slice_ptr_refl, bool_decide_eq_true_2 by reflexivity.
  reflexivity.
Qed.

Lemma Parameters_noop_on_equal_projections_witness :
  Parameters (samples.pool_spec 3 None (Some 1%positive) nil_slice)
             (existing_AgentPool (samples.pool "Succeeded" 3 None (Some 1%positive)))
             samples.store
  = (Return None None, samples.store)
  /\ agentpools_service.Reconcile
       (samples.pool_client (samples.pool "Succeeded" 3 None (Some 1%positive)))
       (samples.pool_spec 3 None (Some 1%positive) nil_slice) samples.store
     = ([agentpools_service.call_Get "rg" "pool0"],
        agentpools_service.attempt_done None, samples.store).
Proof.
  destruct (Parameters_noop_on_equal_projections
              (samples.pool_spec 3 None (Some 1%positive) nil_slice)
              (samples.pool "Succeeded" 3 None (Some 1%positive))
              (samples.pool_props "Succeeded" 3 None (Some 1%positive))
              "Succeeded" samples.store)
    as [HP HR];
    [reflexivity | reflexivity | left; reflexivity | vm_compute; reflexivity |].
  split; [exact HP|].
  apply (HR (samples.pool_client (samples.pool "Succeeded" 3 None (Some 1%positive)))).
  reflexivity.
Defined.

Lemma Parameters_autoscaling_ignores_count_witness :
  Parameters (samples.pool_spec 3 (Some true) (Some 1%positive) nil_slice)
             (existing_AgentPool (samples.pool "Succeeded" 7 (Some true) (Some 1%positive)))
             samples.store
  = (Return None None, samples.store).
Proof.
  apply (Parameters_autoscaling_ignores_count _ _
           (samples.pool_props "Succeeded" 7 (Some true) (Some 1%positive)) "Succeeded");
    solve [ reflexivity | left; reflexivity | vm_compute; reflexivity ].
Defined.

(** C10 (taints in the diff).  The desired projection takes its taints from
    the existing pool, so against one existing pool in a terminal state two
    specs that differ only in NodeTaints have the same projection and
    report the same decision, no-op or update. *)
Theorem Parameters_decision_ignores_spec_taints s taints e props ps h :
  containerservice.Properties e = Some props ->
  containerservice.ProvisioningState props = Some ps ->
  terminal ps ->
  normalizedProfile (with_NodeTaints s taints) props = normalizedProfile s props
  /\ is_noop (Parameters (with_NodeTaints s taints) (existing_AgentPool e) h)
     = is_noop (Parameters s (existing_AgentPool e) h).
Proof.
  intros Hp Hs Ht. split; [reflexivity|].
  rewrite !(Parameters_terminal _ e props ps h Hp Hs Ht).
  change (normalizedProfile (with_NodeTaints s taints) props)
    with (normalizedProfile s props).
  change (NodeLabels (with_NodeTaints s taints)) with (NodeLabels s).
  destruct (containerservice.cmp_Diff_is_empty h _ _); [reflexivity|].
  destruct (NodeLabels s) as [ls|]; reflexivity.
Qed.

Lemma Parameters_decision_ignores_spec_taints_witness :
  is_noop (Parameters
             (with_NodeTaints (samples.pool_spec 3 None (Some 1%positive) nil_slice)
                              (mk_slice ["dedicated=gpu:NoSchedule"]))
             (existing_AgentPool (samples.pool "Succeeded" 3 None (Some 1%positive)))
             samples.store)
  = is_noop (Parameters (samples.pool_spec 3 None (Some 1%positive) nil_slice)
               (existing_AgentPool (samples.pool "Succeeded" 3 None (Some 1%positive)))
               samples.store).
Proof.
  apply (Parameters_decision_ignores_spec_taints _ _ _
           (samples.pool_props "Succeeded" 3 None (Some 1%positive)) "Succeeded");
    solve [ reflexivity | left; reflexivity ].
Defined.

(** X13.  Parameters writes to the store at most behind the Spec's own
    NodeLabels reference: every other map, the existing pool's included, is
    as it was. *)
Lemma Parameters_store_frame s existing h (l : loc) :
  NodeLabels s <> Some l ->
  snd (Parameters s existing h) !! l = h !! l.
Proof.
  intros Hl. unfold Parameters.
  destruct existing as [|e|T]; [reflexivity| |reflexivity].
  destruct (containerservice.Properties e) as [props|]; [|reflexivity].
  destruct (containerservice.ProvisioningState props) as [ps|]; [|reflexivity].
  destruct (negb _ && _ && _); [reflexivity|].
  destruct (containerservice.cmp_Diff_is_empty h _ _); [reflexivity|].
  destruct (NodeLabels s) as [ls|] eqn:Hs; [|reflexivity].
  rewrite mergeSystemNodeLabels_Some. simpl.
  apply lookup_insert_ne. congruence.
Qed.

(** C4 as amended (label preservation).  For every agent pool spec that
    declares a label map and every existing agent pool in a terminal state
    for which Parameters returns an update payload, every label of the
    existing pool whose key has the reserved system prefix is in the label
    map of the payload with its existing value. *)
Theorem Parameters_update_keeps_system_labels s e props ps h ls k v :
  containerservice.Properties e = Some props ->
  containerservice.ProvisioningState props = Some ps ->
  terminal ps ->
  is_noop (Parameters s (existing_AgentPool e) h) = false ->
  NodeLabels s = Some ls ->
  IsAzureSystemNodeLabelKey k = true ->
  deref h (containerservice.NodeLabels props) !! k = Some v ->
  payload_has_label (Parameters s (existing_AgentPool e) h) k v.
Proof.
  intros Hp Hs Ht Hupd Hls Hk Hv. unfold payload_has_label.
  rewrite (Parameters_terminal s e props ps h Hp Hs Ht) in *.
  destruct (containerservice.cmp_Diff_is_empty h _ _); [discriminate Hupd|].
  rewrite Hls in *. rewrite mergeSystemNodeLabels_Some.
  eexists _, _. split; [reflexivity|]. split; [reflexivity|].
  cbn [snd payload containerservice.NodeLabels deref].
  rewrite lookup_insert_eq. cbn [default id].
  rewrite mergeLoop_lookup, Hk, Hv. reflexivity.
Qed.

Lemma Parameters_update_keeps_system_labels_witness :
  payload_has_label
    (Parameters (samples.pool_spec 3 None (Some 1%positive) nil_slice)
                (existing_AgentPool (samples.pool "Succeeded" 3 None (Some 2%positive)))
                samples.store)
    "kubernetes.azure.com/cluster" (Some "MC_rg_aks_westeurope").
Proof.
  apply (Parameters_update_keeps_system_labels _ _
           (samples.pool_props "Succeeded" 3 None (Some 2%positive)) "Succeeded" _ 1%positive);
    solve [ reflexivity | left; reflexivity | vm_compute; reflexivity ].
Defined.

(** C4 as stated fails: a Spec with a nil label map, against an existing
    pool in a terminal state that carries a system label, gets an update
    payload whose label map is nil, so the system label is not in it. *)
Lemma Parameters_nil_labels_drop_system_label :
  let s := samples.pool_spec 3 None None nil_slice in
  let props := samples.pool_props "Succeeded" 3 None (Some 2%positive) in
  let e := samples.pool "Succeeded" 3 None (Some 2%positive) in
  let k := "kubernetes.azure.com/cluster" in
  let v := Some "MC_rg_aks_westeurope" in
  containerservice.Properties e = Some props
  /\ containerservice.ProvisioningState props = Some "Succeeded"
  /\ terminal "Succeeded"
  /\ is_noop (Parameters s (existing_AgentPool e) samples.store) = false
  /\ IsAzureSystemNodeLabelKey k = true
  /\ deref samples.store (containerservice.NodeLabels props) !! k = Some v
  /\ deref samples.store (NodeLabels s) !! k = None
  /\ ~ payload_has_label (Parameters s (existing_AgentPool e) samples.store) k v.
Proof.
  cbv zeta. repeat split; try (vm_compute; reflexivity); try (left; reflexivity).
  intros (p & props' & Hr & Hprops & Hlook).
  vm_compute in Hr. injection Hr as <-.
  injection Hprops as <-.
  discriminate Hlook.
Qed.

(** C7 (the Spec is not to be mutated): the code at a failing input.  The
    Spec declares the label "env"; the existing pool also carries a system
    label.  The call writes the system label into the very map the Spec's
    NodeLabels refers to; called again on the same Spec and the same
    existing pool, Parameters then answers differently. *)
Theorem Parameters_writes_into_spec_labels :
  let s := samples.pool_spec 3 None (Some 1%positive) nil_slice in
  let e := existing_AgentPool (samples.pool "Succeeded" 3 None (Some 2%positive)) in
  let k := "kubernetes.azure.com/cluster" in
  let h' := snd (Parameters s e samples.store) in
  spec_labels s samples.store !! k = None
  /\ spec_labels s h' !! k = Some (Some "MC_rg_aks_westeurope")
  /\ spec_labels s h' <> spec_labels s samples.store
  /\ is_noop (Parameters s e samples.store) = false
  /\ is_noop (Parameters s e h') = true.
Proof.
  cbv zeta. repeat split; try (vm_compute; reflexivity).
  intros Heq.
  assert (Hk : spec_labels (samples.pool_spec 3 None (Some 1%positive) nil_slice)
                 (snd (Parameters (samples.pool_spec 3 None (Some 1%positive) nil_slice)
                         (existing_AgentPool (samples.pool "Succeeded" 3 None (Some 2%positive)))
                         samples.store))
               !! "kubernetes.azure.com/cluster" = None).
  { rewrite Heq. vm_compute. reflexivity. }
  vm_compute in Hk. discriminate Hk.
Qed.

End agentpools_facts.

(** ** Virtual machines: image resolution, Get, Delete, Reconcile *)

Module virtualmachines_facts.
Import golang virtualmachines virtualmachines_terms.

(** The shared-gallery step succeeds exactly when its five coordinates are
    present. *)
Lemma generateSIGImageID_complete image sub rg gallery name version :
  infrav1.SubscriptionID image = Some sub ->
  infrav1.ResourceGroup image = Some rg ->
  infrav1.Gallery image = Some gallery ->
  infrav1.Name image = Some name ->
  infrav1.Version image = Some version ->
  generateSIGImageID image =
    ("/subscriptions/" +:+ sub +:+ "/resourceGroups/" +:+ rg
       +:+ "/providers/Microsoft.Compute/galleries/" +:+ gallery
       +:+ "/images/" +:+ name +:+ "/versions/" +:+ version, None).
Proof.
  intros H1 H2 H3 H4 H5. unfold generateSIGImageID.
  rewrite H1, H2, H3, H4, H5. reflexivity.
Qed.

Lemma generateSIGImageID_incomplete image :
  infrav1.SubscriptionID image = None \/ infrav1.ResourceGroup image = None
  \/ infrav1.Gallery image = None \/ infrav1.Name image = None
  \/ infrav1.Version image = None ->
  exists err, generateSIGImageID image = ("", Some err).
Proof.
  intros Hmiss. unfold generateSIGImageID.
  destruct (infrav1.SubscriptionID image); [|eauto].
  destruct (infrav1.ResourceGroup image); [|eauto].
  destruct (infrav1.Gallery image); [|eauto].
  destruct (infrav1.Name image); [|eauto].
  destruct (infrav1.Version image); [|eauto].
  destruct Hmiss as [?|[?|[?|[?|?]]]]; discriminate.
Qed.

(** C5 (image resolution precedence).  An explicit ID is used verbatim,
    whatever else the descriptor holds: the reference has that ID and no
    other field.  Without an ID, five present gallery coordinates give a
    reference whose ID is exactly the gallery path and that has no other
    field.  Without an ID and with a gallery coordinate missing, the result
    is the marketplace step's, the gallery step's error is not surfaced, and
    with the four marketplace fields present it is the reference made of
    them with no error. *)
Theorem generateImageReference_precedence image :
  (forall id, infrav1.ID image = Some id ->
     generateImageReference image =
       (Some {| compute.Publisher := None; compute.Offer := None; compute.Sku := None;
                compute.Version := None; compute.ID := Some id |}, None))
  /\ (forall sub rg gallery name version,
        infrav1.ID image = None ->
        infrav1.SubscriptionID image = Some sub ->
        infrav1.ResourceGroup image = Some rg ->
        infrav1.Gallery image = Some gallery ->
        infrav1.Name image = Some name ->
        infrav1.Version image = Some version ->
        generateImageReference image =
          (Some {| compute.Publisher := None; compute.Offer := None; compute.Sku := None;
                   compute.Version := None;
                   compute.ID :=
                     Some ("/subscriptions/" +:+ sub +:+ "/resourceGroups/" +:+ rg
                             +:+ "/providers/Microsoft.Compute/galleries/" +:+ gallery
                             +:+ "/images/" +:+ name +:+ "/versions/" +:+ version) |},
           None))
  /\ (infrav1.ID image = None ->
      infrav1.SubscriptionID image = None \/ infrav1.ResourceGroup image = None
      \/ infrav1.Gallery image = None \/ infrav1.Name image = None
      \/ infrav1.Version image = None ->
      generateImageReference image = generateImagePlan image
      /\ (forall publisher offer sku version,
            infrav1.Publisher image = Some publisher ->
            infrav1.Offer image = Some offer ->
            infrav1.SKU image = Some sku ->
            infrav1.Version image = Some version ->
            generateImageReference image =
              (Some {| compute.Publisher := Some publisher; compute.Offer := Some offer;
                       compute.Sku := Some sku; compute.Version := Some version;
                       compute.ID := None |}, None))).
Proof.
  split; [|split].
  - intros id Hid. unfold generateImageReference. rewrite Hid. reflexivity.
  - intros sub rg gallery name version Hid H1 H2 H3 H4 H5.
    unfold generateImageReference.
    rewrite Hid, (generateSIGImageID_complete _ _ _ _ _ _ H1 H2 H3 H4 H5).
    reflexivity.
  - intros Hid Hmiss.
    assert (Hplan : generateImageReference image = generateImagePlan image).
    { unfold generateImageReference. rewrite Hid.
      destruct (generateSIGImageID_incomplete image Hmiss) as [err ->].
      reflexivity. }
    split; [exact Hplan|].
    intros publisher offer sku version Hp Ho Hs Hv.
    rewrite Hplan. unfold generateImagePlan. rewrite Hp, Ho, Hs, Hv. reflexivity.
Qed.

Lemma generateImageReference_precedence_witness :
  generateImageReference
    (samples.image (Some "/subscriptions/0/images/custom") (Some "gallery0") (Some "cncf-upstream"))
  = (Some {| compute.Publisher := None; compute.Offer := None; compute.Sku := None;
             compute.Version := None;
             compute.ID := Some "/subscriptions/0/images/custom" |}, None)
  /\ generateImageReference (samples.image None (Some "gallery0") (Some "cncf-upstream"))
     = (Some {| compute.Publisher := None; compute.Offer := None; compute.Sku := None;
                compute.Version := None;
                compute.ID := Some "/subscriptions/0000/resourceGroups/images/providers/Microsoft.Compute/galleries/gallery0/images/ubuntu/versions/1.2.3" |},
        None)
  /\ generateImageReference (samples.image None None (Some "cncf-upstream"))
     = generateImagePlan (samples.image None None (Some "cncf-upstream"))
  /\ generateImageReference (samples.image None None (Some "cncf-upstream"))
     = (Some {| compute.Publisher := Some "cncf-upstream"; compute.Offer := Some "capi";
                compute.Sku := Some "k8s-1dot16-ubuntu-1804";
                compute.Version := Some "1.2.3"; compute.ID := None |}, None).
Proof.
  split; [|split].
  - apply (proj1 (generateImageReference_precedence _)). reflexivity.
  - apply (proj1 (proj2 (generateImageReference_precedence
                           (samples.image None (Some "gallery0") (Some "cncf-upstream"))))
             "0000" "images" "gallery0" "ubuntu" "1.2.3");
      reflexivity.
  - destruct (proj2 (proj2 (generateImageReference_precedence
                              (samples.image None None (Some "cncf-upstream"))))
                eq_refl (or_intror (or_intror (or_introl eq_refl))))
      as [Hplan Hfields].
    split; [exact Hplan|].
    apply (Hfields "cncf-upstream" "capi" "k8s-1dot16-ubuntu-1804" "1.2.3"); reflexivity.
Defined.

Section with_collaborators.
Context `{Collaborators}.

(** C6 (delete idempotence).  When the delete submission fails with an
    error that reports the resource as not found, Delete returns nil;
    when it fails with any other error, Delete returns that error wrapped
    in a message naming the VM and the resource group. *)
Theorem Delete_absent_is_success s vmSpec future e :
  Client_Delete s (ResourceGroup s) (Name vmSpec) = (future, Some e) ->
  (ResourceNotFound e = true -> snd (Delete s (spec_VM vmSpec)) = None)
  /\ (ResourceNotFound e = false ->
      snd (Delete s (spec_VM vmSpec)) =
        Some (errors_Wrap e ("failed to delete vm " +:+ Name vmSpec
                               +:+ " in resource group " +:+ ResourceGroup s))).
Proof.
  intros Hdel. unfold Delete. rewrite Hdel. cbn [snd].
  split; intros ->; reflexivity.
Qed.

(** C9 (absence reported by Get).  When the fetch fails with an error
    that reports the resource as not found, Get returns a nil value and
    that error wrapped in "vm <name> not found"; and a nil value is
    returned in no other case, so the caller can tell absence from
    every other outcome, other fetch failures included. *)
Theorem Get_absent_is_distinguished s spec :
  (forall vmSpec vm e,
     spec = spec_VM vmSpec ->
     Client_Get s (ResourceGroup s) (Name vmSpec) = (vm, Some e) ->
     ResourceNotFound e = true ->
     Get s spec = (value_nil, Some (errors_Wrap e ("vm " +:+ Name vmSpec +:+ " not found"))))
  /\ (forall vmSpec vm e,
        spec = spec_VM vmSpec ->
        Client_Get s (ResourceGroup s) (Name vmSpec) = (vm, Some e) ->
        ResourceNotFound e = false ->
        Get s spec = (value_SDK vm, Some e))
  /\ (fst (Get s spec) = value_nil ->
      exists vmSpec vm e,
        spec = spec_VM vmSpec
        /\ Client_Get s (ResourceGroup s) (Name vmSpec) = (vm, Some e)
        /\ ResourceNotFound e = true).
Proof.
  repeat split.
  - intros vmSpec vm e -> Hget Hnf. unfold Get. rewrite Hget, Hnf. reflexivity.
  - intros vmSpec vm e -> Hget Hnf. unfold Get. rewrite Hget, Hnf. reflexivity.
  - destruct spec as [vmSpec|]; [|discriminate].
    unfold Get.
    destruct (Client_Get s (ResourceGroup s) (Name vmSpec)) as [vm [e|]] eqn:Hget.
    + destruct (ResourceNotFound e) eqn:Hnf; [eauto 6|discriminate].
    + destruct (SDKToVM vm); discriminate.
Qed.

(** With SSH key data in the spec the key generator is never consulted:
    whatever rsa.GenerateKey would have delivered, the run is the same. *)
Lemma Reconcile_payload_ignores_keygen s vmSpec rnd key :
  SSHKeyData vmSpec <> "" ->
  Reconcile_payload s vmSpec
    {| rsa_GenerateKey := key;
       rand_Read_err := rand_Read_err rnd;
       rand_Read_byte := rand_Read_byte rnd |}
  = Reconcile_payload s vmSpec rnd.
Proof.
  intros Hkey. unfold Reconcile_payload.
  rewrite (bool_decide_eq_false_2 _ Hkey). reflexivity.
Qed.

(** A spec of another resource kind is rejected before any call. *)
Lemma Reconcile_rejects_other_specs s rnd :
  Reconcile s spec_other rnd = ([], Some (errors_New "invalid vm specification")).
Proof. reflexivity. Qed.

(** C8 as amended (randomness in the payload).  For every VM spec with
    non-empty SSHKeyData, two runs of the payload construction on the
    same inputs agree whenever they draw the same random password; when
    both build a payload, the two payloads are identical in every field
    but the admin password, and the key data of both is the spec's
    SSHKeyData. *)
Theorem Reconcile_payload_random_only_in_password s vmSpec r1 r2 :
  SSHKeyData vmSpec <> "" ->
  (GenerateRandomString 32 r1 = GenerateRandomString 32 r2 ->
   Reconcile_payload s vmSpec r1 = Reconcile_payload s vmSpec r2)
  /\ (forall p1 p2,
        Reconcile_payload s vmSpec r1 = inl p1 ->
        Reconcile_payload s vmSpec r2 = inl p2 ->
        without_AdminPassword p1 = without_AdminPassword p2
        /\ KeyData_of p1 = [Some (SSHKeyData vmSpec)]
        /\ KeyData_of p2 = [Some (SSHKeyData vmSpec)]).
Proof.
  intros Hkey. unfold Reconcile_payload.
  rewrite (bool_decide_eq_false_2 _ Hkey).
  destruct (generateStorageProfile vmSpec) as [sp [e|]]; cbv beta iota.
  { split; [reflexivity | intros p1 p2 Hx; discriminate Hx]. }
  destruct (NIC_Get s (NICName vmSpec)) as [[|id|] [e|]]; cbv beta iota;
    try (split; [reflexivity | intros p1 p2 Hx; discriminate Hx]).
  split.
  - intros ->. reflexivity.
  - intros p1 p2.
    destruct (GenerateRandomString 32 r1) as [pw1 [e1|]]; cbv beta iota;
      [intros Hx; discriminate Hx|].
    destruct (GenerateRandomString 32 r2) as [pw2 [e2|]]; cbv beta iota;
      [intros _ Hx; discriminate Hx|].
    intros [= <-] [= <-]. repeat split.
Qed.

(** Whenever Reconcile gets as far as a payload it submits it: the
    virtual machine service consults no diff. *)
Lemma Reconcile_submits_every_payload s vmSpec rnd vm :
  Reconcile_payload s vmSpec rnd = inl vm ->
  fst (Reconcile s (spec_VM vmSpec) rnd)
  = [call_CreateOrUpdate (ResourceGroup s) (Name vmSpec) vm].
Proof.
  intros Hp. unfold Reconcile. rewrite Hp.
  destruct (Client_CreateOrUpdate s (ResourceGroup s) (Name vmSpec) vm).
  reflexivity.
Qed.

End with_collaborators.

Lemma Delete_absent_is_success_witness :
  snd (Delete (H := samples.collaborators)
         (samples.vm_service None (Some (DetailedError 404 "ResourceNotFound")))
         (spec_VM (samples.vm_spec "ssh-rsa AAAAB3NzaC1yc2E")))
  = None
  /\ snd (Delete (H := samples.collaborators)
            (samples.vm_service None (Some (DetailedError 409 "Conflict")))
            (spec_VM (samples.vm_spec "ssh-rsa AAAAB3NzaC1yc2E")))
     = Some (errors_Wrap (DetailedError 409 "Conflict")
               "failed to delete vm vm0 in resource group rg").
Proof.
  split.
  - apply (proj1 (Delete_absent_is_success (H := samples.collaborators)
                    (samples.vm_service None (Some (DetailedError 404 "ResourceNotFound")))
                    (samples.vm_spec "ssh-rsa AAAAB3NzaC1yc2E") samples.accepted
                    (DetailedError 404 "ResourceNotFound") eq_refl)).
    reflexivity.
  - apply (proj2 (Delete_absent_is_success (H := samples.collaborators)
                    (samples.vm_service None (Some (DetailedError 409 "Conflict")))
                    (samples.vm_spec "ssh-rsa AAAAB3NzaC1yc2E") samples.accepted
                    (DetailedError 409 "Conflict") eq_refl)).
    reflexivity.
Defined.

Lemma Get_absent_is_distinguished_witness :
  Get (H := samples.collaborators)
    (samples.vm_service (Some (DetailedError 404 "ResourceNotFound")) None)
    (spec_VM (samples.vm_spec "ssh-rsa AAAAB3NzaC1yc2E"))
  = (value_nil,
     Some (errors_Wrap (DetailedError 404 "ResourceNotFound") "vm vm0 not found"))
  /\ Get (H := samples.collaborators)
       (samples.vm_service (Some (DetailedError 500 "InternalServerError")) None)
       (spec_VM (samples.vm_spec "ssh-rsa AAAAB3NzaC1yc2E"))
     = (value_SDK compute.VirtualMachine_zero,
        Some (DetailedError 500 "InternalServerError"))
  /\ exists vmSpec vm e,
       spec_VM (samples.vm_spec "ssh-rsa AAAAB3NzaC1yc2E") = spec_VM vmSpec
       /\ Client_Get (samples.vm_service (Some (DetailedError 404 "ResourceNotFound")) None)
            "rg" (Name vmSpec) = (vm, Some e)
       /\ ResourceNotFound (Collaborators := samples.collaborators) e = true.
Proof.
  split; [|split].
  - apply (proj1 (Get_absent_is_distinguished (H := samples.collaborators)
                    (samples.vm_service (Some (DetailedError 404 "ResourceNotFound")) None)
                    (spec_VM (samples.vm_spec "ssh-rsa AAAAB3NzaC1yc2E")))
             (samples.vm_spec "ssh-rsa AAAAB3NzaC1yc2E") compute.VirtualMachine_zero
             (DetailedError 404 "ResourceNotFound")); reflexivity.
  - apply (proj1 (proj2 (Get_absent_is_distinguished (H := samples.collaborators)
                    (samples.vm_service (Some (DetailedError 500 "InternalServerError")) None)
                    (spec_VM (samples.vm_spec "ssh-rsa AAAAB3NzaC1yc2E"))))
             (samples.vm_spec "ssh-rsa AAAAB3NzaC1yc2E") compute.VirtualMachine_zero
             (DetailedError 500 "InternalServerError")); reflexivity.
  - apply (proj2 (proj2 (Get_absent_is_distinguished (H := samples.collaborators)
                    (samples.vm_service (Some (DetailedError 404 "ResourceNotFound")) None)
                    (spec_VM (samples.vm_spec "ssh-rsa AAAAB3NzaC1yc2E"))))).
    reflexivity.
Defined.

Lemma Reconcile_payload_random_only_in_password_witness :
  SSHKeyData (samples.vm_spec "ssh-rsa AAAAB3NzaC1yc2E") <> ""
  /\ exists p1 p2,
       Reconcile_payload (H := samples.collaborators) (samples.vm_service None None)
         (samples.vm_spec "ssh-rsa AAAAB3NzaC1yc2E") (samples.entropy Byte.x00) = inl p1
       /\ Reconcile_payload (H := samples.collaborators) (samples.vm_service None None)
            (samples.vm_spec "ssh-rsa AAAAB3NzaC1yc2E") (samples.entropy Byte.xff) = inl p2
       /\ without_AdminPassword p1 = without_AdminPassword p2
       /\ KeyData_of p1 = [Some "ssh-rsa AAAAB3NzaC1yc2E"]
       /\ KeyData_of p2 = [Some "ssh-rsa AAAAB3NzaC1yc2E"].
Proof.
  split; [discriminate|].
  eexists _, _. split; [reflexivity|]. split; [reflexivity|].
  apply (proj2 (Reconcile_payload_random_only_in_password (H := samples.collaborators)
                  (samples.vm_service None None)
                  (samples.vm_spec "ssh-rsa AAAAB3NzaC1yc2E")
                  (samples.entropy Byte.x00) (samples.entropy Byte.xff)
                  ltac:(discriminate))); reflexivity.
Defined.

(** C8 as stated fails: the spec carries SSH key data, the inputs of the
    two runs are the same, and the payloads differ, in the admin password,
    because the runs drew different random bytes. *)
Lemma Reconcile_payload_password_differs :
  let s := samples.vm_service None None in
  let vmSpec := samples.vm_spec "ssh-rsa AAAAB3NzaC1yc2E" in
  SSHKeyData vmSpec <> ""
  /\ Reconcile_payload (H := samples.collaborators) s vmSpec (samples.entropy Byte.x00)
     <> Reconcile_payload (H := samples.collaborators) s vmSpec (samples.entropy Byte.xff)
  /\ AdminPassword_of <$>
       payload_of (Reconcile_payload (H := samples.collaborators) s vmSpec
                     (samples.entropy Byte.x00))
     = Some (Some "AAAAAAAAAAAAAAAAAAAAAAAAAAAAAAAAAAAAAAAAAAA=")
  /\ AdminPassword_of <$>
       payload_of (Reconcile_payload (H := samples.collaborators) s vmSpec
                     (samples.entropy Byte.xff))
     = Some (Some "__________________________________________8=").
Proof.
  cbv zeta. split; [discriminate|]. split; [|split; vm_compute; reflexivity].
  intros Heq.
  apply (f_equal (fun r => AdminPassword_of <$> payload_of r)) in Heq.
  vm_compute in Heq. discriminate Heq.
Qed.

End virtualmachines_facts.

(** ** Agent pools: what Parameters returns, and what it writes *)

Module agentpools_more.
Import golang agentpools agentpools_terms more_terms.

Lemma cmp_ptr_false {A} `{EqDecision A} (x y : option A) :
  x <> y -> cmp_ptr x y = false.
Proof.
  intros Hne. destruct x as [a|], y as [b|]; simpl; try reflexivity.
  - apply bool_decide_eq_false_2. congruence.
  - congruence.
Qed.

(** Merging a map into itself writes every system key back with the value it
    already has. *)
Lemma mergeLoop_self (m : labels) : mergeLoop m m = m.
Proof.
  apply map_eq. intros k. rewrite agentpools_facts.mergeLoop_lookup.
  destruct (IsAzureSystemNodeLabelKey k); [|reflexivity].
  destruct (m !! k); reflexivity.
Qed.

Lemma mergeLoop_twice (aks m : labels) :
  mergeLoop aks (mergeLoop aks m) = mergeLoop aks m.
Proof.
  apply map_eq. intros k. rewrite !agentpools_facts.mergeLoop_lookup.
  destruct (IsAzureSystemNodeLabelKey k); [|reflexivity].
  destruct (aks !! k); reflexivity.
Qed.

Lemma mergeLoop_no_system (aks m : labels) :
  no_system_label aks -> mergeLoop aks m = m.
Proof.
  intros Hno. apply map_eq. intros k. rewrite agentpools_facts.mergeLoop_lookup.
  destruct (IsAzureSystemNodeLabelKey k) eqn:Hk; [|reflexivity].
  destruct (aks !! k) as [v|] eqn:Hv; [|reflexivity].
  rewrite (Hno k v Hv) in Hk. discriminate Hk.
Qed.

(** X1.  mergeSystemNodeLabels with a non-nil destination returns the
    destination's own reference; behind it, a key with the system prefix
    that the provider's map holds has the provider's value (also when the
    destination held another value), and every other key has what the
    destination held: no declared label is dropped and no label of the
    provider without the prefix is copied.  No other map changes. *)
Theorem mergeSystemNodeLabels_result (ls : loc) (aks : option loc) (h : heap) :
  exists h',
    mergeSystemNodeLabels (Some ls) aks h = Some (Some ls, h')
    /\ (forall k,
          deref h' (Some ls) !! k =
            if IsAzureSystemNodeLabelKey k
            then match deref h aks !! k with
                 | Some v => Some v
                 | None => deref h (Some ls) !! k
                 end
            else deref h (Some ls) !! k)
    /\ (forall l, l <> ls -> h' !! l = h !! l).
Proof.
  eexists. split; [reflexivity|]. split.
  - intros k. cbn [deref]. rewrite lookup_insert_eq. cbn [default].
    apply agentpools_facts.mergeLoop_lookup.
  - intros l Hl. apply lookup_insert_ne. congruence.
Qed.

(** X2.  mergeSystemNodeLabels with a nil destination panics exactly when the
    provider's map holds a key with the system prefix (the write then goes
    to a nil map); otherwise it returns nil and writes nothing. *)
Theorem mergeSystemNodeLabels_nil_destination (aks : option loc) (h : heap) :
  (mergeSystemNodeLabels None aks h = None
   <-> exists k v, deref h aks !! k = Some v /\ IsAzureSystemNodeLabelKey k = true)
  /\ (mergeSystemNodeLabels None aks h <> None ->
      mergeSystemNodeLabels None aks h = Some (None, h)).
Proof.
  unfold mergeSystemNodeLabels. cbv zeta.
  destruct (bool_decide (mergeLoop (deref h aks) ∅ = ∅)) eqn:Hb.
  - apply bool_decide_eq_true in Hb. split; [|reflexivity].
    split; [discriminate|].
    intros (k & v & Hv & Hk).
    assert (Hl : mergeLoop (deref h aks) ∅ !! k = Some v).
    { rewrite agentpools_facts.mergeLoop_lookup, Hk, Hv. reflexivity. }
    rewrite Hb, lookup_empty in Hl. discriminate Hl.
  - apply bool_decide_eq_false in Hb. split; [|congruence].
    split; [|reflexivity]. intros _.
    destruct (map_choose (mergeLoop (deref h aks) ∅) Hb) as (k & v & Hl).
    rewrite agentpools_facts.mergeLoop_lookup in Hl.
    destruct (IsAzureSystemNodeLabelKey k) eqn:Hk.
    + destruct (deref h aks !! k) as [w|] eqn:Hw.
      * exists k, w. split; [exact Hw | exact Hk].
      * rewrite lookup_empty in Hl. discriminate Hl.
    + rewrite lookup_empty in Hl. discriminate Hl.
Qed.

(** The store after a merge is a fixed point of that merge. *)
Lemma merge_store_twice (ls : loc) (aks : option loc) (h : heap) :
  let h' := <[ls := mergeLoop (deref h aks) (deref h (Some ls))]> h in
  <[ls := mergeLoop (deref h' aks) (deref h' (Some ls))]> h' = h'.
Proof.
  cbv zeta. rewrite insert_insert_eq. f_equal.
  cbn [deref]. rewrite lookup_insert_eq. cbn [default].
  destruct aks as [la|]; cbn [deref].
  - destruct (decide (la = ls)) as [->|Hne].
    + rewrite lookup_insert_eq. cbn [default].
      rewrite !mergeLoop_self. reflexivity.
    + rewrite lookup_insert_ne by congruence. apply mergeLoop_twice.
  - apply mergeLoop_twice.
Qed.

(** X3.  Merging a second time changes nothing: the store after two merges
    through the same references is the store after one. *)
Theorem mergeSystemNodeLabels_idempotent (ls : loc) (aks : option loc) (h h' : heap) :
  mergeSystemNodeLabels (Some ls) aks h = Some (Some ls, h') ->
  mergeSystemNodeLabels (Some ls) aks h' = Some (Some ls, h').
Proof.
  rewrite !agentpools_facts.mergeSystemNodeLabels_Some. intros [= <-].
  f_equal. f_equal. apply merge_store_twice.
Qed.

Lemma mergeSystemNodeLabels_idempotent_witness :
  exists h',
    mergeSystemNodeLabels (Some 1%positive) (Some 2%positive) samples.store
      = Some (Some 1%positive, h')
    /\ mergeSystemNodeLabels (Some 1%positive) (Some 2%positive) h'
       = Some (Some 1%positive, h').
Proof.
  eexists. split; [reflexivity|].
  apply (mergeSystemNodeLabels_idempotent 1%positive (Some 2%positive) samples.store).
  reflexivity.
Defined.

(** X4.  Parameters panics in exactly one situation: the existing value is
    an agent pool whose properties pointer or provisioning state pointer is
    nil.  In particular the label merge never panics inside Parameters. *)
Theorem Parameters_panics_iff s existing h :
  fst (Parameters s existing h) = Panic
  <-> exists e,
        existing = existing_AgentPool e
        /\ match containerservice.Properties e with
           | None => True
           | Some props => containerservice.ProvisioningState props = None
           end.
Proof.
  unfold Parameters. split.
  - destruct existing as [|e|T]; [discriminate| |discriminate].
    intros Hp. exists e. split; [reflexivity|].
    destruct (containerservice.Properties e) as [props|]; [|exact I].
    destruct (containerservice.ProvisioningState props) as [ps|]; [|reflexivity].
    destruct (negb _ && _ && _); [discriminate Hp|].
    destruct (containerservice.cmp_Diff_is_empty h _ _); [discriminate Hp|].
    destruct (NodeLabels s) as [ls|]; [|discriminate Hp].
    rewrite agentpools_facts.mergeSystemNodeLabels_Some in Hp. discriminate Hp.
  - intros (e & -> & He).
    destruct (containerservice.Properties e) as [props|]; [|reflexivity].
    rewrite He. reflexivity.
Qed.

(** X5.  Parameters returns an error in exactly two ways, and never together
    with a payload or a write: the existing value is not an agent pool (a
    plain error), or it is an agent pool in a non-terminal provisioning
    state (a transient error that asks for a retry after 20 seconds). *)
Theorem Parameters_error_cases s existing h p err :
  fst (Parameters s existing h) = Return p (Some err) ->
  p = None
  /\ snd (Parameters s existing h) = h
  /\ ((exists T, existing = existing_other T /\ IsTransient err = false)
      \/ (exists e props ps,
            existing = existing_AgentPool e
            /\ containerservice.Properties e = Some props
            /\ containerservice.ProvisioningState props = Some ps
            /\ ~ terminal ps
            /\ IsTransient err = true
            /\ RequeueAfter err = 20 * Second)).
Proof.
  unfold Parameters.
  destruct existing as [|e|T]; [discriminate| |].
  - destruct (containerservice.Properties e) as [props|] eqn:Hprops; [|discriminate].
    destruct (containerservice.ProvisioningState props) as [ps|] eqn:Hps; [|discriminate].
    destruct (negb (String.eqb ps infrav1_Canceled) && negb (String.eqb ps infrav1_Failed)
              && negb (String.eqb ps infrav1_Succeeded)) eqn:Hgate.
    + intros [= <- <-]. split; [reflexivity|]. split; [reflexivity|].
      right. exists e, props, ps. repeat split; try assumption.
      intros [-> | [-> | ->]]; discriminate Hgate.
    + destruct (containerservice.cmp_Diff_is_empty h _ _); [discriminate|].
      destruct (NodeLabels s) as [ls|]; [|discriminate].
      rewrite agentpools_facts.mergeSystemNodeLabels_Some. discriminate.
  - intros [= <- <-]. split; [reflexivity|]. split; [reflexivity|].
    left. exists T. split; reflexivity.
Qed.

Lemma Parameters_error_cases_witness :
  None = (None : option containerservice.AgentPool)
  /\ snd (Parameters (samples.pool_spec 3 None (Some 1%positive) nil_slice)
            (existing_other "network.Interface") samples.store) = samples.store
  /\ ((exists T, existing_other "network.Interface" = existing_other T
                 /\ IsTransient (errors_New "network.Interface is not a containerservice.AgentPool")
                    = false)
      \/ (exists e props ps,
            existing_other "network.Interface" = existing_AgentPool e
            /\ containerservice.Properties e = Some props
            /\ containerservice.ProvisioningState props = Some ps
            /\ ~ terminal ps
            /\ IsTransient (errors_New "network.Interface is not a containerservice.AgentPool")
               = true
            /\ RequeueAfter (errors_New "network.Interface is not a containerservice.AgentPool")
               = 20 * Second)).
Proof.
  apply (Parameters_error_cases (samples.pool_spec 3 None (Some 1%positive) nil_slice)
           (existing_other "network.Interface") samples.store).
  reflexivity.
Defined.

(** X6.  Whenever Parameters returns a payload, with or without an existing
    pool, it comes without error and is field for field the record returned
    for creation: the scalar fields are the Spec's (the count is the Spec's
    replica count when positive and nil otherwise, also on an update with
    autoscaling enabled; the taints are the Spec's, not the existing
    pool's), and NodeLabels is the Spec's own map reference.  The contents
    of that map after the call are the Spec's labels with the existing
    pool's system-prefixed labels written over them: through these labels,
    and only through them, the existing pool reaches the payload. *)
Theorem Parameters_payload_fields_and_labels s existing h p err :
  fst (Parameters s existing h) = Return (Some p) err ->
  err = None
  /\ fst (Parameters s existing_nil h) = Return (Some p) None
  /\ exists props,
       containerservice.Properties p = Some props
       /\ containerservice.Count props
          = (if Z.ltb 0 (Replicas s) then Some (Replicas s) else None)
       /\ containerservice.VMSize props
          = (if bool_decide (SKU s = "") then None else Some (SKU s))
       /\ containerservice.OrchestratorVersion props = Version s
       /\ containerservice.Mode props = Mode s
       /\ containerservice.EnableAutoScaling props = EnableAutoScaling s
       /\ containerservice.MinCount props = MinCount s
       /\ containerservice.MaxCount props = MaxCount s
       /\ containerservice.NodeTaints props
          = (if Nat.ltb 0 (len (NodeTaints s)) then Some (NodeTaints s) else None)
       /\ containerservice.NodeLabels props = NodeLabels s
       /\ (forall ls k,
             NodeLabels s = Some ls ->
             deref (snd (Parameters s existing h)) (containerservice.NodeLabels props) !! k
             = if IsAzureSystemNodeLabelKey k
               then match existing_labels existing h !! k with
                    | Some v => Some v
                    | None => spec_labels s h !! k
                    end
               else spec_labels s h !! k).
Proof.
  unfold Parameters, spec_labels.
  destruct existing as [|e|T]; [| |discriminate].
  - intros [= <- <-]. split; [reflexivity|]. split; [reflexivity|].
    eexists. split; [reflexivity|]. repeat (split; [reflexivity|]).
    intros ls k Hls. cbn [snd payload containerservice.NodeLabels existing_labels].
    rewrite lookup_empty. destruct (IsAzureSystemNodeLabelKey k); reflexivity.
  - cbn [existing_labels].
    destruct (containerservice.Properties e) as [props|]; [|discriminate].
    destruct (containerservice.ProvisioningState props) as [ps|]; [|discriminate].
    destruct (negb _ && _ && _); [discriminate|].
    destruct (containerservice.cmp_Diff_is_empty h _ _); [discriminate|].
    destruct (NodeLabels s) as [ls|] eqn:Hls.
    + rewrite agentpools_facts.mergeSystemNodeLabels_Some.
      intros [= <- <-]. split; [reflexivity|]. split; [reflexivity|].
      eexists. split; [reflexivity|]. repeat (split; [reflexivity|]).
      intros ls' k [= <-].
      cbn [snd payload containerservice.NodeLabels deref].
      rewrite lookup_insert_eq. cbn [default id].
      apply agentpools_facts.mergeLoop_lookup.
    + intros [= <- <-]. split; [reflexivity|]. split; [reflexivity|].
      eexists. split; [reflexivity|]. repeat (split; [reflexivity|]).
      intros ls k Hx. discriminate Hx.
Qed.

Lemma Parameters_payload_fields_and_labels_witness :
  (None : option error) = None
  /\ fst (Parameters (samples.pool_spec 3 (Some true) (Some 1%positive) nil_slice)
            existing_nil samples.store)
     = Return (Some (payload (samples.pool_spec 3 (Some true) (Some 1%positive) nil_slice)
                       (Some 1%positive))) None
  /\ exists props,
       containerservice.Properties
         (payload (samples.pool_spec 3 (Some true) (Some 1%positive) nil_slice)
            (Some 1%positive)) = Some props
       /\ containerservice.Count props = Some 3
       /\ containerservice.VMSize props = Some "Standard_D2s_v3"
       /\ containerservice.OrchestratorVersion props = Some "1.22.6"
       /\ containerservice.Mode props = "User"
       /\ containerservice.EnableAutoScaling props = Some true
       /\ containerservice.MinCount props = Some 1
       /\ containerservice.MaxCount props = Some 5
       /\ containerservice.NodeTaints props = None
       /\ containerservice.NodeLabels props = Some 1%positive
       /\ (forall ls k,
             Some 1%positive = Some ls ->
             deref (snd (Parameters
                           (samples.pool_spec 3 (Some true) (Some 1%positive) nil_slice)
                           (existing_AgentPool
                              (samples.pool "Succeeded" 7 (Some true) (Some 2%positive)))
                           samples.store))
               (containerservice.NodeLabels props) !! k
             = if IsAzureSystemNodeLabelKey k
               then match existing_labels
                            (existing_AgentPool
                               (samples.pool "Succeeded" 7 (Some true) (Some 2%positive)))
                            samples.store !! k with
                    | Some v => Some v
                    | None =>
                        spec_labels
                          (samples.pool_spec 3 (Some true) (Some 1%positive) nil_slice)
                          samples.store !! k
                    end
               else spec_labels
                      (samples.pool_spec 3 (Some true) (Some 1%positive) nil_slice)
                      samples.store !! k).
Proof.
  apply (Parameters_payload_fields_and_labels
           (samples.pool_spec 3 (Some true) (Some 1%positive) nil_slice)
           (existing_AgentPool (samples.pool "Succeeded" 7 (Some true) (Some 2%positive)))
           samples.store).
  vm_compute. reflexivity.
Defined.

(** What Parameters leaves in the store: the store it was given, or, on the
    update path of a Spec that declares labels, that store with the merge
    written behind the Spec's NodeLabels reference. *)
Lemma Parameters_store_cases s existing h :
  snd (Parameters s existing h) = h
  \/ exists e props ls p,
       existing = existing_AgentPool e
       /\ containerservice.Properties e = Some props
       /\ NodeLabels s = Some ls
       /\ fst (Parameters s existing h) = Return (Some p) None
       /\ snd (Parameters s existing h)
          = <[ls := mergeLoop (deref h (containerservice.NodeLabels props))
                              (deref h (Some ls))]> h.
Proof.
  unfold Parameters.
  destruct existing as [|e|T]; [left; reflexivity| |left; reflexivity].
  destruct (containerservice.Properties e) as [props|] eqn:Hprops; [|left; reflexivity].
  destruct (containerservice.ProvisioningState props) as [ps|]; [|left; reflexivity].
  destruct (negb _ && _ && _); [left; reflexivity|].
  destruct (containerservice.cmp_Diff_is_empty h _ _); [left; reflexivity|].
  destruct (NodeLabels s) as [ls|] eqn:Hls; [|left; reflexivity].
  right. exists e, props, ls. eexists.
  split; [reflexivity|]. split; [exact Hprops|]. repeat split.
Qed.

(** X7.  A second call of Parameters on the same Spec and the same existing
    value, made on the store the first call left, writes nothing more: one
    call brings the store to its final contents. *)
Theorem Parameters_second_call_writes_nothing s existing h :
  snd (Parameters s existing (snd (Parameters s existing h)))
  = snd (Parameters s existing h).
Proof.
  destruct (Parameters_store_cases s existing h)
    as [Hsame | (e & props & ls & p & -> & Hprops & Hls & _ & Hstore)].
  - rewrite Hsame. exact Hsame.
  - rewrite Hstore.
    destruct (Parameters_store_cases s (existing_AgentPool e)
                (<[ls := mergeLoop (deref h (containerservice.NodeLabels props))
                                   (deref h (Some ls))]> h))
      as [Hsame | (e' & props' & ls' & p' & [= <-] & Hprops' & Hls' & _ & Hstore')].
    + exact Hsame.
    + rewrite Hstore'.
      assert (props' = props) as -> by congruence.
      assert (ls' = ls) as -> by congruence.
      apply (merge_store_twice ls (containerservice.NodeLabels props) h).
Qed.

(** X8.  Every key at which a call of Parameters changed the Spec's label
    map has the system prefix and now holds the value the existing pool
    gives it; the labels without the prefix are as the Spec declared them. *)
Theorem Parameters_writes_only_system_labels s existing h k :
  spec_labels s (snd (Parameters s existing h)) !! k <> spec_labels s h !! k ->
  IsAzureSystemNodeLabelKey k = true
  /\ is_Some (existing_labels existing h !! k)
  /\ spec_labels s (snd (Parameters s existing h)) !! k = existing_labels existing h !! k.
Proof.
  unfold spec_labels.
  destruct (Parameters_store_cases s existing h)
    as [Hsame | (e & props & ls & p & -> & Hprops & Hls & _ & Hstore)].
  - rewrite Hsame. congruence.
  - rewrite Hstore, Hls. cbn [existing_labels]. rewrite Hprops.
    cbn [deref]. rewrite lookup_insert_eq. cbn [default id].
    rewrite agentpools_facts.mergeLoop_lookup.
    destruct (IsAzureSystemNodeLabelKey k); [|congruence].
    destruct (deref h (containerservice.NodeLabels props) !! k) as [v|] eqn:Hv;
      [|congruence].
    intros _. split; [reflexivity|]. split; [eexists|]; reflexivity.
Qed.

Lemma Parameters_writes_only_system_labels_witness :
  IsAzureSystemNodeLabelKey "kubernetes.azure.com/cluster" = true
  /\ is_Some (existing_labels
                (existing_AgentPool (samples.pool "Succeeded" 3 None (Some 2%positive)))
                samples.store !! "kubernetes.azure.com/cluster")
  /\ spec_labels (samples.pool_spec 3 None (Some 1%positive) nil_slice)
       (snd (Parameters (samples.pool_spec 3 None (Some 1%positive) nil_slice)
               (existing_AgentPool (samples.pool "Succeeded" 3 None (Some 2%positive)))
               samples.store)) !! "kubernetes.azure.com/cluster"
     = existing_labels
         (existing_AgentPool (samples.pool "Succeeded" 3 None (Some 2%positive)))
         samples.store !! "kubernetes.azure.com/cluster".
Proof.
  apply (Parameters_writes_only_system_labels
           (samples.pool_spec 3 None (Some 1%positive) nil_slice)
           (existing_AgentPool (samples.pool "Succeeded" 3 None (Some 2%positive)))
           samples.store "kubernetes.azure.com/cluster").
  vm_compute. discriminate.
Defined.

(** X9.  Parameters writes to the store only on the update path: if the store
    it leaves differs from the store it was given, then the existing value
    is an agent pool, the Spec declares a label map, and a payload without
    error is returned.  Creation, no-op, errors and panics write nothing. *)
Theorem Parameters_writes_only_on_update s existing h :
  snd (Parameters s existing h) <> h ->
  exists e ls p,
    existing = existing_AgentPool e
    /\ NodeLabels s = Some ls
    /\ fst (Parameters s existing h) = Return (Some p) None.
Proof.
  intros Hne.
  destruct (Parameters_store_cases s existing h)
    as [Hsame | (e & props & ls & p & He & _ & Hls & Hp & _)].
  - contradiction.
  - exists e, ls, p. repeat split; assumption.
Qed.

Lemma Parameters_writes_only_on_update_witness :
  exists e ls p,
    existing_AgentPool (samples.pool "Succeeded" 3 None (Some 2%positive))
      = existing_AgentPool e
    /\ NodeLabels (samples.pool_spec 3 None (Some 1%positive) nil_slice) = Some ls
    /\ fst (Parameters (samples.pool_spec 3 None (Some 1%positive) nil_slice)
              (existing_AgentPool (samples.pool "Succeeded" 3 None (Some 2%positive)))
              samples.store) = Return (Some p) None.
Proof.
  apply (Parameters_writes_only_on_update
           (samples.pool_spec 3 None (Some 1%positive) nil_slice)
           (existing_AgentPool (samples.pool "Succeeded" 3 None (Some 2%positive)))
           samples.store).
  intros Heq.
  apply (f_equal (fun st : heap =>
                    deref st (Some 1%positive) !! "kubernetes.azure.com/cluster")) in Heq.
  vm_compute in Heq. discriminate Heq.
Defined.

Lemma normalizedProfile_same_fields s1 s2 props :
  same_diff_fields s1 s2 -> normalizedProfile s1 props = normalizedProfile s2 props.
Proof.
  intros (Hr & Hv & Hm & Ha & Hmin & Hmax & Hl). unfold normalizedProfile.
  rewrite Hr, Hv, Hm, Ha, Hmin, Hmax, Hl. reflexivity.
Qed.

(** X10.  The diff reads seven fields of the Spec: replica count, version,
    mode, autoscaling flag, min and max count, and the label map.  Two specs
    that agree on these get the same decision (no-op or not), the same
    error and the same writes against every existing value, whatever their
    VM size, disk size and type, subnet, taints, zones, pod limit and the
    other fields say: a change of those alone is never reported as an
    update. *)
Theorem Parameters_decision_reads_seven_fields s1 s2 existing h :
  same_diff_fields s1 s2 ->
  is_noop (Parameters s1 existing h) = is_noop (Parameters s2 existing h)
  /\ returned_error (Parameters s1 existing h) = returned_error (Parameters s2 existing h)
  /\ snd (Parameters s1 existing h) = snd (Parameters s2 existing h).
Proof.
  intros Hsame.
  pose proof Hsame as (_ & _ & _ & _ & _ & _ & Hl).
  unfold Parameters, is_noop, returned_error.
  destruct existing as [|e|T]; [repeat split| |repeat split].
  destruct (containerservice.Properties e) as [props|]; [|repeat split].
  destruct (containerservice.ProvisioningState props) as [ps|]; [|repeat split].
  destruct (negb _ && _ && _); [repeat split|].
  rewrite (normalizedProfile_same_fields s1 s2 props Hsame), Hl.
  destruct (containerservice.cmp_Diff_is_empty h _ _); [repeat split|].
  destruct (NodeLabels s2) as [ls|]; [|repeat split].
  rewrite agentpools_facts.mergeSystemNodeLabels_Some. repeat split.
Qed.

Lemma Parameters_decision_reads_seven_fields_witness :
  is_noop (Parameters (samples.pool_spec 3 None (Some 1%positive) nil_slice)
             (existing_AgentPool (samples.pool "Succeeded" 3 None (Some 1%positive)))
             samples.store)
  = is_noop (Parameters (more_samples.resized_pool_spec 3 (Some 1%positive))
               (existing_AgentPool (samples.pool "Succeeded" 3 None (Some 1%positive)))
               samples.store)
  /\ returned_error (Parameters (samples.pool_spec 3 None (Some 1%positive) nil_slice)
                       (existing_AgentPool (samples.pool "Succeeded" 3 None (Some 1%positive)))
                       samples.store)
     = returned_error (Parameters (more_samples.resized_pool_spec 3 (Some 1%positive))
                         (existing_AgentPool (samples.pool "Succeeded" 3 None (Some 1%positive)))
                         samples.store)
  /\ snd (Parameters (samples.pool_spec 3 None (Some 1%positive) nil_slice)
            (existing_AgentPool (samples.pool "Succeeded" 3 None (Some 1%positive)))
            samples.store)
     = snd (Parameters (more_samples.resized_pool_spec 3 (Some 1%positive))
              (existing_AgentPool (samples.pool "Succeeded" 3 None (Some 1%positive)))
              samples.store).
Proof.
  apply (Parameters_decision_reads_seven_fields
           (samples.pool_spec 3 None (Some 1%positive) nil_slice)
           (more_samples.resized_pool_spec 3 (Some 1%positive))).
  repeat split.
Defined.

(** X11.  Without autoscaling the replica count is compared: against an
    existing pool in a terminal state whose count is not the Spec's, the
    call is never a no-op; it returns the Spec's payload and no error. *)
Theorem Parameters_count_mismatch_updates s e props ps h :
  to_Bool (EnableAutoScaling s) = false ->
  containerservice.Properties e = Some props ->
  containerservice.ProvisioningState props = Some ps ->
  terminal ps ->
  containerservice.Count props <> Some (Replicas s) ->
  fst (Parameters s (existing_AgentPool e) h)
  = Return (Some (payload s (NodeLabels s))) None.
Proof.
  intros Ha Hp Hs Ht Hc.
  rewrite (agentpools_facts.Parameters_terminal s e props ps h Hp Hs Ht).
  unfold containerservice.cmp_Diff_is_empty, normalizedProfile, existingProfile.
  rewrite agentpools_facts.cmp_Equal_profile, Ha.
  rewrite (cmp_ptr_false (Some (Replicas s)) (containerservice.Count props))
    by congruence.
  cbn [andb].
  destruct (NodeLabels s) as [ls|]; [|reflexivity].
  rewrite agentpools_facts.mergeSystemNodeLabels_Some. reflexivity.
Qed.

Lemma Parameters_count_mismatch_updates_witness :
  fst (Parameters (samples.pool_spec 3 None (Some 1%positive) nil_slice)
         (existing_AgentPool (samples.pool "Succeeded" 7 None (Some 1%positive)))
         samples.store)
  = Return (Some (payload (samples.pool_spec 3 None (Some 1%positive) nil_slice)
                    (Some 1%positive))) None.
Proof.
  apply (Parameters_count_mismatch_updates
           (samples.pool_spec 3 None (Some 1%positive) nil_slice) _
           (samples.pool_props "Succeeded" 7 None (Some 1%positive)) "Succeeded");
    solve [ reflexivity | left; reflexivity | discriminate ].
Defined.

(** X12.  The diff tells a nil label map from a non-nil one, also from an
    empty one: when exactly one of the Spec and the existing pool (in a
    terminal state) has a nil NodeLabels, the call is never a no-op and
    returns the Spec's payload. *)
Theorem Parameters_nil_labels_differ_from_empty s e props ps h :
  containerservice.Properties e = Some props ->
  containerservice.ProvisioningState props = Some ps ->
  terminal ps ->
  (NodeLabels s = None /\ containerservice.NodeLabels props <> None)
  \/ (NodeLabels s <> None /\ containerservice.NodeLabels props = None) ->
  fst (Parameters s (existing_AgentPool e) h)
  = Return (Some (payload s (NodeLabels s))) None.
Proof.
  intros Hp Hs Ht Hnil.
  rewrite (agentpools_facts.Parameters_terminal s e props ps h Hp Hs Ht).
  unfold containerservice.cmp_Diff_is_empty, normalizedProfile, existingProfile.
  rewrite agentpools_facts.cmp_Equal_profile.
  assert (Hm : cmp_map h (NodeLabels s) (containerservice.NodeLabels props) = false).
  { destruct Hnil as [[Hn Hx] | [Hx Hn]]; rewrite Hn;
      [destruct (containerservice.NodeLabels props) | destruct (NodeLabels s)];
      solve [reflexivity | contradiction]. }
  rewrite Hm, andb_false_r. cbn [andb].
  destruct (NodeLabels s) as [ls|]; [|reflexivity].
  rewrite agentpools_facts.mergeSystemNodeLabels_Some. reflexivity.
Qed.

Lemma Parameters_nil_labels_differ_from_empty_witness :
  fst (Parameters (samples.pool_spec 3 None None nil_slice)
         (existing_AgentPool (samples.pool "Succeeded" 3 None (Some 3%positive)))
         more_samples.store_with_empty)
  = Return (Some (payload (samples.pool_spec 3 None None nil_slice) None)) None.
Proof.
  apply (Parameters_nil_labels_differ_from_empty
           (samples.pool_spec 3 None None nil_slice) _
           (samples.pool_props "Succeeded" 3 None (Some 3%positive)) "Succeeded");
    [reflexivity | reflexivity | left; reflexivity |].
  left. split; [reflexivity | discriminate].
Defined.

Lemma Parameters_store_frame_witness :
  snd (Parameters (samples.pool_spec 3 None (Some 1%positive) nil_slice)
         (existing_AgentPool (samples.pool "Succeeded" 3 None (Some 2%positive)))
         samples.store) !! 2%positive
  = samples.store !! 2%positive.
Proof.
  apply (agentpools_facts.Parameters_store_frame
           (samples.pool_spec 3 None (Some 1%positive) nil_slice)).
  discriminate.
Defined.

End agentpools_more.

(** ** Virtual machines: when the operations succeed, and what they call *)

Module virtualmachines_more.
Import golang virtualmachines virtualmachines_terms more_vm_terms.

(** X14.  The shared-gallery step succeeds exactly when all five coordinates
    are present; when it fails it returns the empty string. *)
Theorem generateSIGImageID_succeeds_iff image :
  (snd (generateSIGImageID image) = None <-> gallery_complete image)
  /\ (snd (generateSIGImageID image) <> None -> fst (generateSIGImageID image) = "").
Proof.
  unfold generateSIGImageID, gallery_complete.
  destruct (infrav1.SubscriptionID image) as [a|];
    [|split; [split; [discriminate | intros (H1 & _); destruct H1; discriminate] | reflexivity]].
  destruct (infrav1.ResourceGroup image) as [b|];
    [|split; [split; [discriminate | intros (_ & H1 & _); destruct H1; discriminate] | reflexivity]].
  destruct (infrav1.Gallery image) as [c|];
    [|split; [split; [discriminate | intros (_ & _ & H1 & _); destruct H1; discriminate] | reflexivity]].
  destruct (infrav1.Name image) as [d|];
    [|split; [split; [discriminate | intros (_ & _ & _ & H1 & _); destruct H1; discriminate] | reflexivity]].
  destruct (infrav1.Version image) as [e|];
    [|split; [split; [discriminate | intros (_ & _ & _ & _ & H1); destruct H1; discriminate] | reflexivity]].
  split; [|intros Hx; contradiction Hx; reflexivity].
  split; [|reflexivity]. intros _. repeat split; eexists; reflexivity.
Qed.

(** X15.  The marketplace step succeeds exactly when publisher, offer, SKU
    and version are all present, and then returns a reference made of these
    four fields with no ID.  When it fails it returns no reference and an
    error that names the first missing field in the order Publisher, Offer,
    SKU, Version: that field is nil and the ones before it are present. *)
Theorem generateImagePlan_succeeds_iff image :
  (snd (generateImagePlan image) = None <-> marketplace_complete image)
  /\ (snd (generateImagePlan image) = None ->
      fst (generateImagePlan image)
      = Some {| compute.Publisher := infrav1.Publisher image;
                compute.Offer := infrav1.Offer image;
                compute.Sku := infrav1.SKU image;
                compute.Version := infrav1.Version image;
                compute.ID := None |})
  /\ (forall err, snd (generateImagePlan image) = Some err ->
        fst (generateImagePlan image) = None
        /\ ((err = errors_New "Image reference cannot be generated, as Publisher field is missing"
             /\ infrav1.Publisher image = None)
            \/ (err = errors_New "Image reference cannot be generated, as Offer field is missing"
                /\ infrav1.Offer image = None
                /\ is_Some (infrav1.Publisher image))
            \/ (err = errors_New "Image reference cannot be generated, as SKU field is missing"
                /\ infrav1.SKU image = None
                /\ is_Some (infrav1.Publisher image) /\ is_Some (infrav1.Offer image))
            \/ (err = errors_New "Image reference cannot be generated, as Version field is missing"
                /\ infrav1.Version image = None
                /\ is_Some (infrav1.Publisher image) /\ is_Some (infrav1.Offer image)
                /\ is_Some (infrav1.SKU image)))).
Proof.
  unfold generateImagePlan, marketplace_complete.
  destruct (infrav1.Publisher image) as [a|] eqn:Ha.
  2:{ split; [split; [discriminate | intros (H1 & _); destruct H1; discriminate]|].
      split; [discriminate|]. intros err [= <-]. split; [reflexivity|].
      left. split; reflexivity. }
  destruct (infrav1.Offer image) as [b|] eqn:Hb.
  2:{ split; [split; [discriminate | intros (_ & H1 & _); destruct H1; discriminate]|].
      split; [discriminate|]. intros err [= <-]. split; [reflexivity|].
      right; left. repeat split. eexists; reflexivity. }
  destruct (infrav1.SKU image) as [c|] eqn:Hc.
  2:{ split; [split; [discriminate | intros (_ & _ & H1 & _); destruct H1; discriminate]|].
      split; [discriminate|]. intros err [= <-]. split; [reflexivity|].
      right; right; left. repeat split; eexists; reflexivity. }
  destruct (infrav1.Version image) as [d|] eqn:Hd.
  2:{ split; [split; [discriminate | intros (_ & _ & _ & H1); destruct H1; discriminate]|].
      split; [discriminate|]. intros err [= <-]. split; [reflexivity|].
      right; right; right. repeat split; eexists; reflexivity. }
  split; [|split; [reflexivity | discriminate]].
  split; [|reflexivity]. intros _. repeat split; eexists; reflexivity.
Qed.

(** The shared-gallery step either has its five coordinates and a path, or
    lacks one and has an error. *)
Lemma generateSIGImageID_cases image :
  (gallery_complete image /\ exists id, generateSIGImageID image = (id, None))
  \/ (~ gallery_complete image /\ exists err, generateSIGImageID image = ("", Some err)).
Proof.
  unfold generateSIGImageID, gallery_complete.
  destruct (infrav1.SubscriptionID image) as [a|];
    [|right; split; [intros (H1 & _); destruct H1; discriminate | eauto]].
  destruct (infrav1.ResourceGroup image) as [b|];
    [|right; split; [intros (_ & H1 & _); destruct H1; discriminate | eauto]].
  destruct (infrav1.Gallery image) as [c|];
    [|right; split; [intros (_ & _ & H1 & _); destruct H1; discriminate | eauto]].
  destruct (infrav1.Name image) as [d|];
    [|right; split; [intros (_ & _ & _ & H1 & _); destruct H1; discriminate | eauto]].
  destruct (infrav1.Version image) as [e|];
    [|right; split; [intros (_ & _ & _ & _ & H1); destruct H1; discriminate | eauto]].
  left. split; [repeat split; eexists; reflexivity | eauto].
Qed.

Lemma generateImagePlan_cases image :
  (marketplace_complete image
   /\ exists r, generateImagePlan image = (Some r, None) /\ by_marketplace r)
  \/ (~ marketplace_complete image
      /\ exists err, generateImagePlan image = (None, Some err)).
Proof.
  unfold generateImagePlan, marketplace_complete.
  destruct (infrav1.Publisher image) as [a|];
    [|right; split; [intros (H1 & _); destruct H1; discriminate | eauto]].
  destruct (infrav1.Offer image) as [b|];
    [|right; split; [intros (_ & H1 & _); destruct H1; discriminate | eauto]].
  destruct (infrav1.SKU image) as [c|];
    [|right; split; [intros (_ & _ & H1 & _); destruct H1; discriminate | eauto]].
  destruct (infrav1.Version image) as [d|];
    [|right; split; [intros (_ & _ & _ & H1); destruct H1; discriminate | eauto]].
  left. split; [repeat split; eexists; reflexivity|].
  eexists. split; [reflexivity|]. repeat split; eexists; reflexivity.
Qed.

(** X16.  Image resolution succeeds exactly when one of the three modes
    applies: an ID is present, or the five gallery coordinates are, or the
    four marketplace fields are. *)
Theorem generateImageReference_succeeds_iff image :
  snd (generateImageReference image) = None
  <-> is_Some (infrav1.ID image) \/ gallery_complete image \/ marketplace_complete image.
Proof.
  unfold generateImageReference.
  destruct (infrav1.ID image) as [id|].
  { split; [intros _; left; eexists; reflexivity | reflexivity]. }
  destruct (generateSIGImageID_cases image) as [(Hg & id & ->) | (Hg & err & ->)].
  { split; [intros _; right; left; exact Hg | reflexivity]. }
  destruct (generateImagePlan_cases image) as [(Hm & r & -> & _) | (Hm & err' & ->)].
  - split; [intros _; right; right; exact Hm | reflexivity].
  - split; [discriminate|].
    intros [[x Hx] | [Hx | Hx]]; [discriminate Hx | contradiction | contradiction].
Qed.

(** X17.  Image resolution never mixes modes and never surfaces a gallery
    error.  A reference it returns comes without error and addresses either
    by ID alone or by the four marketplace fields alone.  An error it
    returns comes without reference and is the marketplace step's error,
    and then the descriptor has no ID and an incomplete gallery. *)
Theorem generateImageReference_result_shape image :
  (forall r, fst (generateImageReference image) = Some r ->
     snd (generateImageReference image) = None /\ (by_ID r \/ by_marketplace r))
  /\ (forall err, snd (generateImageReference image) = Some err ->
        fst (generateImageReference image) = None
        /\ infrav1.ID image = None
        /\ ~ gallery_complete image
        /\ generateImagePlan image = (None, Some err)).
Proof.
  unfold generateImageReference.
  destruct (infrav1.ID image) as [id|].
  { split; [|discriminate]. intros r [= <-]. split; [reflexivity|].
    left. repeat split. eexists; reflexivity. }
  destruct (generateSIGImageID_cases image) as [(Hg & id & ->) | (Hg & err & ->)].
  { split; [|discriminate]. intros r [= <-]. split; [reflexivity|].
    left. repeat split. eexists; reflexivity. }
  destruct (generateImagePlan_cases image) as [(Hm & r & -> & Hr) | (Hm & err' & ->)].
  - split; [|discriminate]. intros r' [= <-]. split; [reflexivity | right; exact Hr].
  - split; [discriminate|]. intros err'' [= <-]. repeat split. exact Hg.
Qed.

Section with_collaborators.
Context `{Collaborators}.

(** X18.  Reconcile validates before it calls: when the image of the spec
    cannot be resolved, Reconcile returns the image error itself and makes
    no call on the VM client, whatever the network interface lookup and the
    random source would have delivered. *)
Theorem Reconcile_image_error_first s vmSpec rnd err :
  snd (generateImageReference (Image vmSpec)) = Some err ->
  Reconcile s (spec_VM vmSpec) rnd = ([], Some err).
Proof.
  intros Himg. unfold Reconcile, Reconcile_payload, generateStorageProfile.
  destruct (generateImageReference (Image vmSpec)) as [r [e|]]; [|discriminate Himg].
  cbn [snd] in Himg. injection Himg as ->. reflexivity.
Qed.

(** X19.  A missing dependency ends the attempt: when the image resolves and
    the network interface lookup fails, Reconcile returns the lookup's error
    unwrapped and submits nothing; when the lookup returns something that
    is not a network interface, it returns an error and submits nothing. *)
Theorem Reconcile_nic_failure s vmSpec rnd nic nicErr :
  snd (generateImageReference (Image vmSpec)) = None ->
  NIC_Get s (NICName vmSpec) = (nic, nicErr) ->
  (forall err, nicErr = Some err ->
     Reconcile s (spec_VM vmSpec) rnd = ([], Some err))
  /\ (nicErr = None -> (forall id, nic <> nic_Interface id) ->
      Reconcile s (spec_VM vmSpec) rnd
      = ([], Some (errors_New "error getting network security group"))).
Proof.
  intros Himg Hnic. unfold Reconcile, Reconcile_payload, generateStorageProfile.
  destruct (generateImageReference (Image vmSpec)) as [r [e|]]; [discriminate Himg|].
  rewrite Hnic. split.
  - intros err ->. destruct nic; reflexivity.
  - intros -> Hnot. destruct nic as [|id|]; [reflexivity | | reflexivity].
    contradiction (Hnot id). reflexivity.
Qed.

(** X20.  A failure while generating credentials aborts the attempt: if
    reading the random bytes fails, or the spec has no SSH key and
    generating or converting one fails, Reconcile submits nothing and
    returns an error; it never goes on with an empty password or key. *)
Theorem Reconcile_credential_failure_aborts s vmSpec rnd e :
  rand_Read_err rnd = Some e
  \/ (SSHKeyData vmSpec = ""
      /\ (rsa_GenerateKey rnd = inr e
          \/ exists key, rsa_GenerateKey rnd = inl key /\ ssh_NewPublicKey key = inr e)) ->
  fst (Reconcile s (spec_VM vmSpec) rnd) = []
  /\ exists err, snd (Reconcile s (spec_VM vmSpec) rnd) = Some err.
Proof.
  intros Hfail. unfold Reconcile, Reconcile_payload, GenerateRandomString.
  destruct (generateStorageProfile vmSpec) as [sp [e0|]]; cbv beta iota;
    [split; [reflexivity | eauto]|].
  destruct (NIC_Get s (NICName vmSpec)) as [[|id|] [e0|]]; cbv beta iota;
    try (split; [reflexivity | eauto]).
  destruct Hfail as [Hread | (Hkey & Hgen)].
  - rewrite Hread.
    destruct (bool_decide (SSHKeyData vmSpec = "")).
    + destruct (rsa_GenerateKey rnd) as [key|e1]; [|split; [reflexivity | eauto]].
      destruct (ssh_NewPublicKey key) as [pub|e1]; split; solve [reflexivity | eauto].
    + split; [reflexivity | eauto].
  - rewrite (bool_decide_eq_true_2 _ Hkey).
    destruct Hgen as [-> | (key & -> & ->)]; split; solve [reflexivity | eauto].
Qed.

(** X21.  Reconcile returns nil only after everything went through: the
    argument is a VM spec, a payload was built, the submission was
    accepted, waiting for the operation succeeded and so did fetching its
    result; and in that case it made exactly the one submit call. *)
Theorem Reconcile_nil_iff s spec rnd :
  snd (Reconcile s spec rnd) = None
  <-> exists vmSpec vm future,
        spec = spec_VM vmSpec
        /\ Reconcile_payload s vmSpec rnd = inl vm
        /\ Client_CreateOrUpdate s (ResourceGroup s) (Name vmSpec) vm = (future, None)
        /\ WaitForCompletionRef future = None
        /\ Result future = None
        /\ fst (Reconcile s spec rnd)
           = [call_CreateOrUpdate (ResourceGroup s) (Name vmSpec) vm].
Proof.
  unfold Reconcile. split.
  - destruct spec as [vmSpec|]; [|discriminate].
    destruct (Reconcile_payload s vmSpec rnd) as [vm|e] eqn:Hp; [|discriminate].
    destruct (Client_CreateOrUpdate s (ResourceGroup s) (Name vmSpec) vm)
      as [future [e|]] eqn:Hc; cbn [snd fst]; [discriminate|].
    destruct (WaitForCompletionRef future) as [e|] eqn:Hw; [discriminate|].
    intros Hr. exists vmSpec, vm, future. repeat split; assumption.
  - intros (vmSpec & vm & future & -> & -> & -> & -> & -> & _). reflexivity.
Qed.

(** X22.  Delete returns nil in exactly two ways: the delete submission
    failed with an error that reports the resource as not found (and then
    nothing is waited for), or the submission, the wait and the result
    fetch all succeeded.  An error of the wait is wrapped, an error of the
    result fetch is returned as it is. *)
Theorem Delete_nil_iff s vmSpec future delErr :
  Client_Delete s (ResourceGroup s) (Name vmSpec) = (future, delErr) ->
  (snd (Delete s (spec_VM vmSpec)) = None
   <-> (exists e, delErr = Some e /\ ResourceNotFound e = true)
       \/ (delErr = None /\ WaitForCompletionRef future = None /\ Result future = None))
  /\ (delErr = None ->
      snd (Delete s (spec_VM vmSpec)) =
        match WaitForCompletionRef future with
        | Some e => Some (errors_Wrap e "cannot delete, future response")
        | None => Result future
        end)
  /\ fst (Delete s (spec_VM vmSpec)) = [call_Delete (ResourceGroup s) (Name vmSpec)].
Proof.
  intros Hdel. unfold Delete. rewrite Hdel. cbn [snd fst].
  split; [|split; [intros ->; reflexivity | reflexivity]].
  destruct delErr as [e|].
  - destruct (ResourceNotFound e) eqn:Hnf.
    + split; [intros _; left; eauto | reflexivity].
    + split; [discriminate|].
      intros [(e' & [= <-] & He') | (Hx & _)]; [congruence | discriminate Hx].
  - destruct (WaitForCompletionRef future) as [e|].
    + split; [discriminate|].
      intros [(e' & Hx & _) | (_ & Hx & _)]; discriminate Hx.
    + split; [intros Hr; right; repeat split; exact Hr|].
      intros [(e' & Hx & _) | (_ & _ & Hr)]; [discriminate Hx | exact Hr].
Qed.

(** X23.  Get returns no error exactly when the argument is a VM spec, the
    fetch succeeded and the conversion of the fetched machine succeeded;
    the value is then the converted machine.  A failed conversion is
    reported with the conversion's own error. *)
Theorem Get_nil_error_iff s spec :
  snd (Get s spec) = None
  <-> exists vmSpec vm v,
        spec = spec_VM vmSpec
        /\ Client_Get s (ResourceGroup s) (Name vmSpec) = (vm, None)
        /\ SDKToVM vm = (v, None)
        /\ Get s spec = (value_VM v, None).
Proof.
  unfold Get. split.
  - destruct spec as [vmSpec|]; [|discriminate].
    destruct (Client_Get s (ResourceGroup s) (Name vmSpec)) as [vm [e|]] eqn:Hget.
    + destruct (ResourceNotFound e); discriminate.
    + destruct (SDKToVM vm) as [v [e|]] eqn:Hconv; [discriminate|].
      intros _. exists vmSpec, vm, v.
      split; [reflexivity|]. split; [exact Hget|]. split; [exact Hconv|].
      reflexivity.
  - intros (vmSpec & vm & v & -> & -> & -> & _). reflexivity.
Qed.

End with_collaborators.

Lemma Reconcile_image_error_first_witness :
  Reconcile (H := samples.collaborators) (samples.vm_service None None)
    (spec_VM (more_samples.vm_spec_with_image (samples.image None None None)))
    (samples.entropy Byte.x00)
  = ([], Some (errors_New (missing_field_message "Publisher"))).
Proof.
  apply (Reconcile_image_error_first (H := samples.collaborators)).
  reflexivity.
Defined.

Lemma Reconcile_nic_failure_witness :
  (forall err, Some (DetailedError 404 "nic0 not found") = Some err ->
     Reconcile (H := samples.collaborators)
       (more_samples.vm_service_with_nic nic_nil (Some (DetailedError 404 "nic0 not found")))
       (spec_VM (samples.vm_spec "ssh-rsa AAAAB3NzaC1yc2E")) (samples.entropy Byte.x00)
     = ([], Some err))
  /\ (Some (DetailedError 404 "nic0 not found") = None ->
      (forall id, nic_nil <> nic_Interface id) ->
      Reconcile (H := samples.collaborators)
        (more_samples.vm_service_with_nic nic_nil (Some (DetailedError 404 "nic0 not found")))
        (spec_VM (samples.vm_spec "ssh-rsa AAAAB3NzaC1yc2E")) (samples.entropy Byte.x00)
      = ([], Some (errors_New "error getting network security group"))).
Proof.
  apply (Reconcile_nic_failure (H := samples.collaborators)
           (more_samples.vm_service_with_nic nic_nil (Some (DetailedError 404 "nic0 not found")))
           (samples.vm_spec "ssh-rsa AAAAB3NzaC1yc2E") (samples.entropy Byte.x00));
    reflexivity.
Defined.

Lemma Reconcile_credential_failure_aborts_witness :
  fst (Reconcile (H := samples.collaborators) (samples.vm_service None None)
         (spec_VM (samples.vm_spec "ssh-rsa AAAAB3NzaC1yc2E")) more_samples.broken_entropy)
  = []
  /\ exists err,
       snd (Reconcile (H := samples.collaborators) (samples.vm_service None None)
              (spec_VM (samples.vm_spec "ssh-rsa AAAAB3NzaC1yc2E"))
              more_samples.broken_entropy)
       = Some err.
Proof.
  apply (Reconcile_credential_failure_aborts (H := samples.collaborators)
           (samples.vm_service None None) (samples.vm_spec "ssh-rsa AAAAB3NzaC1yc2E")
           more_samples.broken_entropy (errors_New "unexpected EOF")).
  left. reflexivity.
Defined.

Lemma Delete_nil_iff_witness :
  (snd (Delete (H := samples.collaborators) (samples.vm_service None None)
          (spec_VM (samples.vm_spec "ssh-rsa AAAAB3NzaC1yc2E"))) = None
   <-> (exists e, (None : option error) = Some e
                  /\ ResourceNotFound (Collaborators := samples.collaborators) e = true)
       \/ ((None : option error) = None
           /\ WaitForCompletionRef samples.accepted = None
           /\ Result samples.accepted = None))
  /\ ((None : option error) = None ->
      snd (Delete (H := samples.collaborators) (samples.vm_service None None)
             (spec_VM (samples.vm_spec "ssh-rsa AAAAB3NzaC1yc2E"))) =
        match WaitForCompletionRef samples.accepted with
        | Some e => Some (errors_Wrap e "cannot delete, future response")
        | None => Result samples.accepted
        end)
  /\ fst (Delete (H := samples.collaborators) (samples.vm_service None None)
            (spec_VM (samples.vm_spec "ssh-rsa AAAAB3NzaC1yc2E")))
     = [call_Delete "rg" "vm0"].
Proof.
  apply (Delete_nil_iff (H := samples.collaborators) (samples.vm_service None None)
           (samples.vm_spec "ssh-rsa AAAAB3NzaC1yc2E") samples.accepted None).
  reflexivity.
Defined.

End virtualmachines_more.

(** ** The random string: base64 loses nothing *)

Module base64_facts.
Import golang base64 base64_inverse.

Local Open Scope N_scope.

(** Lists three elements at a time. *)
Lemma list_ind3 {A} (P : list A -> Prop) :
  P [] -> (forall a, P [a]) -> (forall a b, P [a; b]) ->
  (forall a b c l, P l -> P (a :: b :: c :: l)) ->
  forall l, P l.
Proof.
  intros H0 H1 H2 H3 l.
  assert (Hall : P l /\ (forall a, P (a :: l)) /\ (forall a b, P (a :: b :: l))).
  { induction l as [|x l (IH0 & IH1 & IH2)].
    - repeat split; auto.
    - repeat split; auto. }
  apply Hall.
Qed.

(** Below a power of two, [lor] after a shift is addition. *)
Lemma lor_shiftl_add (a k x : N) :
  x < 2 ^ k -> N.lor (N.shiftl a k) x = a * 2 ^ k + x.
Proof.
  intros Hx.
  assert (Hland : N.land (N.shiftl a k) x = 0).
  { apply N.bits_inj. intros i. rewrite N.land_spec, N.bits_0.
    destruct (N.lt_ge_cases i k) as [Hlt|Hge].
    - rewrite N.shiftl_spec_low by assumption. reflexivity.
    - rewrite <- (N.mod_small x (2 ^ k)) by assumption.
      rewrite N.mod_pow2_bits_high by assumption. apply andb_false_r. }
  rewrite <- N.lxor_lor, <- N.add_nocarry_lxor by assumption.
  rewrite N.shiftl_mul_pow2. reflexivity.
Qed.

Lemma uint_bounded (b : Byte.byte) : uint b < 256.
Proof. unfold uint. pose proof (Byte.to_N_bounded b). lia. Qed.

Lemma byte_of_uint (b : Byte.byte) : byte_of (uint b) = b.
Proof. unfold byte_of, uint. rewrite Byte.of_to_N. reflexivity. Qed.

(** The value the encoder builds from three, two and one bytes. *)
Lemma val3 (a b c : Byte.byte) :
  N.lor (N.lor (N.shiftl (uint a) 16) (N.shiftl (uint b) 8)) (uint c)
  = uint a * 65536 + uint b * 256 + uint c.
Proof.
  pose proof (uint_bounded a). pose proof (uint_bounded b). pose proof (uint_bounded c).
  rewrite (N.shiftl_mul_pow2 (uint b) 8).
  rewrite (lor_shiftl_add (uint a) 16 (uint b * 2 ^ 8)) by (change (2 ^ 8) with 256; change (2 ^ 16) with 65536; lia).
  replace (uint a * 2 ^ 16 + uint b * 2 ^ 8) with (N.shiftl (uint a * 256 + uint b) 8)
    by (rewrite N.shiftl_mul_pow2; change (2 ^ 8) with 256; change (2 ^ 16) with 65536; lia).
  rewrite lor_shiftl_add by (change (2 ^ 8) with 256; lia).
  change (2 ^ 8) with 256. lia.
Qed.

Lemma val2 (a b : Byte.byte) :
  N.lor (N.shiftl (uint a) 16) (N.shiftl (uint b) 8) = uint a * 65536 + uint b * 256.
Proof.
  pose proof (uint_bounded b).
  rewrite (N.shiftl_mul_pow2 (uint b) 8).
  rewrite lor_shiftl_add by (change (2 ^ 8) with 256; change (2 ^ 16) with 65536; lia).
  reflexivity.
Qed.

Lemma val1 (a : Byte.byte) : N.shiftl (uint a) 16 = uint a * 65536.
Proof. rewrite N.shiftl_mul_pow2. reflexivity. Qed.

(** The table, checked entry by entry. *)
Lemma table_checked : forallb table_ok (map N.of_nat (seq 0 64)) = true.
Proof. vm_compute. reflexivity. Qed.

Lemma encode_mod (v : N) : encode v = encode (v mod 64).
Proof.
  unfold encode. change 63 with (N.ones 6). rewrite !N.land_ones.
  change (2 ^ 6) with 64. rewrite N.Div0.mod_mod. reflexivity.
Qed.

Lemma table_at (v : N) : table_ok (v mod 64) = true.
Proof.
  pose proof table_checked as Hall. rewrite forallb_forall in Hall.
  apply Hall. apply in_map_iff. exists (N.to_nat (v mod 64)). split.
  - apply N2Nat.id.
  - apply in_seq. assert (Hlt : v mod 64 < 64) by (apply N.mod_upper_bound; lia).
    generalize dependent (v mod 64). intros n Hn. lia.
Qed.

Lemma decodeMap_encode (v : N) : decodeMap (encode v) = Some (v mod 64).
Proof.
  rewrite encode_mod. pose proof (table_at v) as Ht. unfold table_ok in Ht.
  apply andb_prop in Ht as [Ht _]. apply andb_prop in Ht as [Ht _].
  destruct (decodeMap (encode (v mod 64))) as [j|]; [|discriminate Ht].
  apply N.eqb_eq in Ht. congruence.
Qed.

Lemma encode_not_padding (v : N) : Ascii.eqb (encode v) StdPadding = false.
Proof.
  rewrite encode_mod. pose proof (table_at v) as Ht. unfold table_ok in Ht.
  apply andb_prop in Ht as [Ht _]. apply andb_prop in Ht as [_ Ht].
  apply negb_true_iff in Ht. exact Ht.
Qed.

Lemma encode_url_safe (v : N) : url_safe (encode v) = true.
Proof.
  rewrite encode_mod. pose proof (table_at v) as Ht. unfold table_ok in Ht.
  apply andb_prop in Ht as [_ Ht]. exact Ht.
Qed.

Lemma shiftr_div (v : N) :
  N.shiftr v 18 = v / 262144 /\ N.shiftr v 12 = v / 4096 /\ N.shiftr v 6 = v / 64.
Proof. rewrite !N.shiftr_div_pow2. repeat split. Qed.

(** The six-bit groups of three bytes give the three bytes back. *)
Lemma sextets3 (a b c : N) :
  a < 256 -> b < 256 -> c < 256 ->
  let v := a * 65536 + b * 256 + c in
  let v' := (v / 262144) mod 64 * 262144 + (v / 4096) mod 64 * 4096
            + (v / 64) mod 64 * 64 + v mod 64 in
  v' / 65536 = a /\ (v' / 256) mod 256 = b /\ v' mod 256 = c.
Proof.
  intros Ha Hb Hc v v'.
  assert (Hv : v' = v).
  { subst v v'. zify. Z.to_euclidean_division_equations. lia. }
  rewrite Hv. subst v. repeat split; zify; Z.to_euclidean_division_equations; lia.
Qed.

Lemma sextets2 (a b : N) :
  a < 256 -> b < 256 ->
  let v := a * 65536 + b * 256 in
  let v' := (v / 262144) mod 64 * 262144 + (v / 4096) mod 64 * 4096
            + (v / 64) mod 64 * 64 in
  v' / 65536 = a /\ (v' / 256) mod 256 = b.
Proof.
  intros Ha Hb v v'.
  assert (Hv : v' = v).
  { subst v v'. zify. Z.to_euclidean_division_equations. lia. }
  rewrite Hv. subst v. repeat split; zify; Z.to_euclidean_division_equations; lia.
Qed.

Lemma sextets1 (a : N) :
  a < 256 ->
  let v := a * 65536 in
  (v / 262144) mod 64 * 4 + (v / 4096) mod 64 / 16 = a.
Proof.
  intros Ha v. subst v. zify. Z.to_euclidean_division_equations. lia.
Qed.

Lemma EncodeToString_three (a b c : Byte.byte) (l : list Byte.byte) :
  EncodeToString (a :: b :: c :: l) =
    let val := uint a * 65536 + uint b * 256 + uint c in
    String (encode (val / 262144))
      (String (encode (val / 4096))
         (String (encode (val / 64)) (String (encode val) (EncodeToString l)))).
Proof.
  cbv zeta. rewrite <- val3.
  destruct (shiftr_div (N.lor (N.lor (N.shiftl (uint a) 16) (N.shiftl (uint b) 8)) (uint c)))
    as (<- & <- & <-).
  reflexivity.
Qed.

Lemma EncodeToString_two (a b : Byte.byte) :
  EncodeToString [a; b] =
    let val := uint a * 65536 + uint b * 256 in
    String (encode (val / 262144))
      (String (encode (val / 4096))
         (String (encode (val / 64)) (String StdPadding ""))).
Proof.
  cbv zeta. rewrite <- val2.
  destruct (shiftr_div (N.lor (N.shiftl (uint a) 16) (N.shiftl (uint b) 8)))
    as (<- & <- & <-).
  reflexivity.
Qed.

Lemma EncodeToString_one (a : Byte.byte) :
  EncodeToString [a] =
    let val := uint a * 65536 in
    String (encode (val / 262144))
      (String (encode (val / 4096)) (String StdPadding (String StdPadding ""))).
Proof.
  cbv zeta. rewrite <- val1.
  destruct (shiftr_div (N.shiftl (uint a) 16)) as (<- & <- & _).
  reflexivity.
Qed.

Lemma DecodeString_group (c0 c1 c2 c3 : ascii) (rest : string) :
  DecodeString (String c0 (String c1 (String c2 (String c3 rest)))) =
    match decodeMap c0, decodeMap c1 with
    | Some s0, Some s1 =>
        if Ascii.eqb c3 StdPadding then
          match rest with
          | EmptyString =>
              if Ascii.eqb c2 StdPadding
              then Some [byte_of (s0 * 4 + s1 / 16)]
              else
                match decodeMap c2 with
                | Some s2 =>
                    let v := s0 * 262144 + s1 * 4096 + s2 * 64 in
                    Some [byte_of (v / 65536); byte_of ((v / 256) mod 256)]
                | None => None
                end
          | _ => None
          end
        else
          match decodeMap c2, decodeMap c3, DecodeString rest with
          | Some s2, Some s3, Some tl =>
              let v := s0 * 262144 + s1 * 4096 + s2 * 64 + s3 in
              Some (byte_of (v / 65536) :: byte_of ((v / 256) mod 256)
                      :: byte_of (v mod 256) :: tl)
          | _, _, _ => None
          end
    | _, _ => None
    end.
Proof. reflexivity. Qed.

(** Decoding what was encoded gives the bytes back. *)
Lemma DecodeString_EncodeToString (src : list Byte.byte) :
  DecodeString (EncodeToString src) = Some src.
Proof.
  induction src as [|a|a b|a b c l IH] using list_ind3.
  - reflexivity.
  - rewrite EncodeToString_one. cbv zeta. rewrite DecodeString_group.
    rewrite !decodeMap_encode. rewrite Ascii.eqb_refl.
    rewrite (sextets1 (uint a) (uint_bounded a)), byte_of_uint. reflexivity.
  - rewrite EncodeToString_two. cbv zeta. rewrite DecodeString_group.
    rewrite !decodeMap_encode. rewrite Ascii.eqb_refl, encode_not_padding. cbv zeta.
    destruct (sextets2 (uint a) (uint b) (uint_bounded a) (uint_bounded b)) as (-> & ->).
    rewrite !byte_of_uint. reflexivity.
  - rewrite EncodeToString_three. cbv zeta. rewrite DecodeString_group.
    rewrite !decodeMap_encode. rewrite encode_not_padding, IH. cbv zeta.
    destruct (sextets3 (uint a) (uint b) (uint c)
                (uint_bounded a) (uint_bounded b) (uint_bounded c)) as (-> & -> & ->).
    rewrite !byte_of_uint. reflexivity.
Qed.

Lemma EncodeToString_inj (b1 b2 : list Byte.byte) :
  EncodeToString b1 = EncodeToString b2 -> b1 = b2.
Proof.
  intros Heq. apply (f_equal DecodeString) in Heq.
  rewrite !DecodeString_EncodeToString in Heq. congruence.
Qed.

Lemma EncodeToString_length (src : list Byte.byte) :
  String.length (EncodeToString src) = (4 * ((length src + 2) / 3))%nat.
Proof.
  induction src as [|a|a b|a b c l IH] using list_ind3; try reflexivity.
  rewrite EncodeToString_three. cbv zeta. cbn [String.length length].
  rewrite IH.
  replace (S (S (S (length l))) + 2)%nat with ((length l + 2) + 1 * 3)%nat by lia.
  rewrite Nat.div_add by lia. lia.
Qed.

Lemma EncodeToString_url_safe (src : list Byte.byte) :
  forallb url_safe (list_ascii_of_string (EncodeToString src)) = true.
Proof.
  induction src as [|a|a b|a b c l IH] using list_ind3.
  - reflexivity.
  - rewrite EncodeToString_one. cbv zeta. cbn [list_ascii_of_string forallb].
    rewrite !encode_url_safe. reflexivity.
  - rewrite EncodeToString_two. cbv zeta. cbn [list_ascii_of_string forallb].
    rewrite !encode_url_safe. reflexivity.
  - rewrite EncodeToString_three. cbv zeta. cbn [list_ascii_of_string forallb].
    rewrite !encode_url_safe, IH. reflexivity.
Qed.

End base64_facts.

(** ** The random string and the admin password *)

Module random_string_facts.
Import golang virtualmachines virtualmachines_terms base64_inverse.

(** X24.  GenerateRandomString propagates a failure of the random source:
    it then returns the empty string together with the source's error.
    When the source delivers, it returns no error and a string of
    4 * ceil(n / 3) characters, each a letter, a digit, '-', '_' or the
    padding '='; for n > 0 the string is not empty. *)
Theorem GenerateRandomString_outcome (n : nat) (rnd : Entropy) :
  (forall e, rand_Read_err rnd = Some e ->
     GenerateRandomString n rnd = ("", Some e))
  /\ (rand_Read_err rnd = None ->
      snd (GenerateRandomString n rnd) = None
      /\ String.length (fst (GenerateRandomString n rnd)) = (4 * ((n + 2) / 3))%nat
      /\ forallb url_safe (list_ascii_of_string (fst (GenerateRandomString n rnd))) = true
      /\ ((0 < n)%nat -> fst (GenerateRandomString n rnd) <> "")).
Proof.
  unfold GenerateRandomString. split.
  - intros e ->. reflexivity.
  - intros ->. cbn [fst snd]. split; [reflexivity|].
    assert (Hlen : String.length
                     (base64.EncodeToString (map (rand_Read_byte rnd) (seq 0 n)))
                   = (4 * ((n + 2) / 3))%nat).
    { rewrite base64_facts.EncodeToString_length, length_map, length_seq. reflexivity. }
    split; [exact Hlen|]. split; [apply base64_facts.EncodeToString_url_safe|].
    intros Hn Hempty. rewrite Hempty in Hlen. cbn [String.length] in Hlen.
    assert (1 <= (n + 2) / 3)%nat by (apply Nat.div_le_lower_bound; lia).
    lia.
Qed.

(** X25.  The string keeps all of the randomness: two runs in which the
    source delivers return the same string exactly when the source
    delivered the same byte at each of the n positions. *)
Theorem GenerateRandomString_same_iff (n : nat) (r1 r2 : Entropy) :
  rand_Read_err r1 = None ->
  rand_Read_err r2 = None ->
  fst (GenerateRandomString n r1) = fst (GenerateRandomString n r2)
  <-> forall i, (i < n)%nat -> rand_Read_byte r1 i = rand_Read_byte r2 i.
Proof.
  intros H1 H2. unfold GenerateRandomString. rewrite H1, H2. cbn [fst]. split.
  - intros Heq i Hi. apply base64_facts.EncodeToString_inj in Heq.
    apply (proj1 List.map_ext_in_iff Heq). apply in_seq. lia.
  - intros Hsame. f_equal. apply List.map_ext_in. intros i Hi.
    apply Hsame. apply in_seq in Hi. lia.
Qed.

Lemma GenerateRandomString_same_iff_witness :
  fst (GenerateRandomString 32 (samples.entropy Byte.x2a))
  = fst (GenerateRandomString 32
           {| rsa_GenerateKey := inr (errors_New "no key");
              rand_Read_err := None;
              rand_Read_byte := fun _ => Byte.x2a |})
  <-> forall i, (i < 32)%nat ->
        rand_Read_byte (samples.entropy Byte.x2a) i
        = rand_Read_byte {| rsa_GenerateKey := inr (errors_New "no key");
                            rand_Read_err := None;
                            rand_Read_byte := fun _ => Byte.x2a |} i.
Proof.
  apply (GenerateRandomString_same_iff 32 (samples.entropy Byte.x2a)); reflexivity.
Defined.

Section with_collaborators.
Context `{Collaborators}.

(** The payload Reconcile builds carries the random string as its admin
    password, and is built only when the random source delivered. *)
Lemma Reconcile_payload_password s vmSpec rnd p :
  Reconcile_payload s vmSpec rnd = inl p ->
  rand_Read_err rnd = None
  /\ AdminPassword_of p = Some (fst (GenerateRandomString 32 rnd)).
Proof.
  unfold Reconcile_payload.
  destruct (generateStorageProfile vmSpec) as [sp [e|]]; cbv beta iota;
    [discriminate|].
  destruct (NIC_Get s (NICName vmSpec)) as [[|id|] [e|]]; cbv beta iota;
    try discriminate.
  destruct (if bool_decide (SSHKeyData vmSpec = "") then _ else _) as [key|e];
    [|discriminate].
  unfold GenerateRandomString.
  destruct (rand_Read_err rnd) as [e|]; cbv beta iota; [discriminate|].
  intros [= <-]. split; reflexivity.
Qed.

(** X26.  Every payload Reconcile builds has an admin password of 44
    characters that are safe in a URL, the encoding of 32 bytes of the
    random source; when reading the random bytes fails no payload is
    built. *)
Theorem Reconcile_payload_password_shape s vmSpec rnd p :
  Reconcile_payload s vmSpec rnd = inl p ->
  rand_Read_err rnd = None
  /\ exists pw,
       AdminPassword_of p = Some pw
       /\ pw = base64.EncodeToString (bytes_read rnd 32)
       /\ String.length pw = 44%nat
       /\ forallb url_safe (list_ascii_of_string pw) = true.
Proof.
  intros Hp. destruct (Reconcile_payload_password s vmSpec rnd p Hp) as [Herr Hpw].
  split; [exact Herr|].
  exists (fst (GenerateRandomString 32 rnd)). split; [exact Hpw|].
  unfold GenerateRandomString. rewrite Herr. cbn [fst].
  split; [reflexivity|]. split.
  - rewrite base64_facts.EncodeToString_length, length_map, length_seq. reflexivity.
  - apply base64_facts.EncodeToString_url_safe.
Qed.

(** X27.  Two runs of the payload construction whose random sources differ
    in one of the first 32 bytes build payloads with different admin
    passwords, whatever the spec holds. *)
Theorem Reconcile_payload_passwords_differ s vmSpec r1 r2 p1 p2 i :
  Reconcile_payload s vmSpec r1 = inl p1 ->
  Reconcile_payload s vmSpec r2 = inl p2 ->
  (i < 32)%nat ->
  rand_Read_byte r1 i <> rand_Read_byte r2 i ->
  AdminPassword_of p1 <> AdminPassword_of p2.
Proof.
  intros Hp1 Hp2 Hi Hne Heq.
  destruct (Reconcile_payload_password s vmSpec r1 p1 Hp1) as [He1 Hpw1].
  destruct (Reconcile_payload_password s vmSpec r2 p2 Hp2) as [He2 Hpw2].
  rewrite Hpw1, Hpw2 in Heq. injection Heq as Heq.
  unfold GenerateRandomString in Heq. rewrite He1, He2 in Heq. cbn [fst] in Heq.
  apply base64_facts.EncodeToString_inj in Heq.
  apply Hne. apply (proj1 List.map_ext_in_iff Heq). apply in_seq. lia.
Qed.

End with_collaborators.

Lemma Reconcile_payload_password_shape_witness :
  match Reconcile_payload (H := samples.collaborators) (samples.vm_service None None)
          (samples.vm_spec "ssh-rsa AAAAB3NzaC1yc2E") more_samples.counting_entropy with
  | inl p =>
      rand_Read_err more_samples.counting_entropy = None
      /\ exists pw,
           AdminPassword_of p = Some pw
           /\ pw = base64.EncodeToString (bytes_read more_samples.counting_entropy 32)
           /\ String.length pw = 44%nat
           /\ forallb url_safe (list_ascii_of_string pw) = true
  | inr _ => False
  end.
Proof.
  destruct (Reconcile_payload (H := samples.collaborators) (samples.vm_service None None)
              (samples.vm_spec "ssh-rsa AAAAB3NzaC1yc2E") more_samples.counting_entropy)
    as [p|e] eqn:Hp.
  - exact (Reconcile_payload_password_shape (H := samples.collaborators) _ _ _ p Hp).
  - vm_compute in Hp. discriminate Hp.
Defined.

Lemma Reconcile_payload_passwords_differ_witness :
  exists p1 p2,
    Reconcile_payload (H := samples.collaborators) (samples.vm_service None None)
      (samples.vm_spec "ssh-rsa AAAAB3NzaC1yc2E") (samples.entropy Byte.x00) = inl p1
    /\ Reconcile_payload (H := samples.collaborators) (samples.vm_service None None)
         (samples.vm_spec "ssh-rsa AAAAB3NzaC1yc2E") more_samples.counting_entropy = inl p2
    /\ AdminPassword_of p1 <> AdminPassword_of p2.
Proof.
  eexists _, _. split; [reflexivity|]. split; [reflexivity|].
  apply (Reconcile_payload_passwords_differ (H := samples.collaborators)
           (samples.vm_service None None) (samples.vm_spec "ssh-rsa AAAAB3NzaC1yc2E")
           (samples.entropy Byte.x00) more_samples.counting_entropy _ _ 31%nat);
    [reflexivity | reflexivity | lia | vm_compute; discriminate].
Defined.

End random_string_facts.
